(** * minqlx console commands (commands.c): a shallow embedding

    The file [commands.c] holds the console commands the extension adds to
    the dedicated server: the print family, [Slap], [Slay], and the bridge
    into the embedded Python interpreter ([PyRcon], [PyCommand],
    [RestartPython]).  Each command is a [void f(void)] that reads the
    tokenised command line from the host and acts on host globals, so the
    embedding is a state monad over a [world] record that holds exactly the
    globals the commands touch, together with the trace of calls made into
    the host engine and the interpreter. *)

From Stdlib Require Import ZArith Lia List String Ascii Bool SpecFloat DecimalString
  DecimalPos.
From coqutil Require Import Word.Interface Word.Properties Word.Naive Word.Bitwidth32.
Import ListNotations.
Local Open Scope Z_scope.

(** ** C [int]: 32-bit two's complement *)

Module Int.

(** A C [int] is a 32-bit machine word read as a signed number. *)
Definition int : Type := @word.rep 32 Naive.word32.

Definition min_signed : Z := -2147483648.
Definition max_signed : Z := 2147483647.

Definition repr (z : Z) : int := word.of_Z z.
Definition signed (x : int) : Z := word.signed x.

(** [x - y] on the machine: the difference is reduced modulo [2^32]. *)
Definition sub (x y : int) : int := word.sub x y.

(** [x < y] on signed values. *)
Definition lt (x y : int) : bool := word.lts x y.

(** [x != 0], the truth value of an [int] in a condition. *)
Definition nonzero (x : int) : bool := negb (word.eqb x (repr 0)).

(** The signed value a 32-bit word holds for an arbitrary integer. *)
Definition wrap (z : Z) : Z := (z + 2147483648) mod 4294967296 - 2147483648.

Definition in_range (z : Z) : Prop := min_signed <= z <= max_signed.

End Int.

(** ** Text *)

(** The newline and the double quote that the C format strings spell with
    backslash escapes. *)
Definition nl : string := String "010"%char EmptyString.
Definition dq : string := String "034"%char EmptyString.

(** What [printf]'s [%d] prints for an [int]. *)
Definition fmt_d (x : Int.int) : string :=
  NilZero.string_of_int (Z.to_int (Int.signed x)).

(** *** [atoi]

    [atoi(s)] is [(int) strtol(s, NULL, 10)]: leading white space is
    skipped, an optional sign is read, then the longest run of decimal
    digits; text with no digits there gives [0].  A value that does not fit
    a [long] is clamped by [strtol] (LP64), and the conversion to [int] keeps
    the low 32 bits. *)

Definition isspace (c : ascii) : bool :=
  let n := Z.of_nat (nat_of_ascii c) in
  (n =? 32) || ((9 <=? n) && (n <=? 13)).

Definition digit_of (c : ascii) : option Z :=
  let n := Z.of_nat (nat_of_ascii c) in
  if (48 <=? n) && (n <=? 57) then Some (n - 48) else None.

Fixpoint skip_space (s : string) : string :=
  match s with
  | String c r => if isspace c then skip_space r else s
  | EmptyString => s
  end.

Fixpoint scan_digits (s : string) (acc : Z) : Z :=
  match s with
  | String c r =>
      match digit_of c with
      | Some d => scan_digits r (10 * acc + d)
      | None => acc
      end
  | EmptyString => acc
  end.

Definition clamp_long (z : Z) : Z :=
  Z.max (-9223372036854775808) (Z.min 9223372036854775807 z).

Definition strtol10 (s : string) : Z :=
  match skip_space s with
  | String "-"%char r => clamp_long (- scan_digits r 0)
  | String "+"%char r => clamp_long (scan_digits r 0)
  | t => clamp_long (scan_digits t 0)
  end.

Definition atoi (s : string) : Int.int := Int.repr (strtol10 s).

(** ** C [float]: IEEE 754 binary32 *)

Definition float : Type := spec_float.
Definition fadd : float -> float -> float := SFadd 24 128.
Definition fmul : float -> float -> float := SFmul 24 128.

(** The literals [200.0f] and [300.0f]. *)
Definition f200 : float := S754_finite false 13107200 (-16).
Definition f300 : float := S754_finite false 9830400 (-15).

(** ** Host data *)

(** Modelled from the spec: [quake_common.h] is not among the sources, so
    the entity record carries the fields the commands use and section 3 of
    the specification lists: [inuse], [health], the three components of
    [client->ps.velocity], and [s.number]. *)
Record gentity_t : Type := mk_gentity {
  inuse : bool;
  health : Int.int;
  velocity0 : float;
  velocity1 : float;
  velocity2 : float;
  s_number : Int.int
}.

(** The event kinds the commands pass to [G_AddEvent]. *)
Inductive entity_event_t : Type := EV_PAIN | EV_DEATH1 | EV_GIB_PLAYER.

(** ** The embedded interpreter, as the commands see it *)

(** A [PyObject*] that is not [NULL]: the singleton [Py_False], or any other
    object, named by an address. *)
Inductive PyObject : Type :=
| Py_False
| Py_Other (addr : nat).

(** A callable registered from Python: called on the argument string it
    hands back a new reference, or [NULL] ([None]) with an exception set. *)
Definition PyCallable : Type := string -> option PyObject.

Inductive PyGILState_STATE : Type := PyGILState_LOCKED | PyGILState_UNLOCKED.

(** ** Calls into the host and the interpreter

    Every call a command makes that leaves the file is recorded, in order. *)
Inductive effect : Type :=
| Ev_Com_Printf (text : string)
| Ev_SV_SendServerCommand (client : option Z) (text : string)
| Ev_DebugPrint (text : string)
| Ev_G_AddEvent (ent : Z) (event : entity_event_t) (eventParm : Int.int)
| Ev_RconDispatcher (cmd : string)
| Ev_PyGILState_Ensure
| Ev_PyObject_CallFunction (arg : string) (result : option PyObject)
| Ev_Py_XDECREF (obj : option PyObject)
| Ev_PyGILState_Release
| Ev_PyMinqlx_Finalize
| Ev_PyMinqlx_Initialize
| Ev_NewGameDispatcher (restarted : Int.int).

(** ** The world the commands run in

    The host's tokenised command line, the globals [sv_maxclients],
    [g_entities] and [svs->clients], the values [RandomFloatWithNegative]
    will hand out, the interpreter session, and the calls made so far.
    The two tables are read at whatever index the commands compute; the
    only bound on it is the commands' own range check. *)
Record world : Type := mk_world {
  cmd_argv : list string;
  sv_maxclients : Int.int;
  g_entities : Z -> gentity_t;
  client_name : Z -> string;
  random_source : nat -> float;
  random_drawn : nat;
  custom_command_handler : option PyCallable;
  py_initialized : bool;
  gil_depth : nat;
  py_refs : nat;
  trace : list effect
}.

Definition set_entities (g : Z -> gentity_t) (w : world) : world :=
  mk_world (cmd_argv w) (sv_maxclients w) g (client_name w)
    (random_source w) (random_drawn w) (custom_command_handler w)
    (py_initialized w) (gil_depth w) (py_refs w) (trace w).

Definition set_random_drawn (n : nat) (w : world) : world :=
  mk_world (cmd_argv w) (sv_maxclients w) (g_entities w) (client_name w)
    (random_source w) n (custom_command_handler w)
    (py_initialized w) (gil_depth w) (py_refs w) (trace w).

Definition set_handler (h : option PyCallable) (w : world) : world :=
  mk_world (cmd_argv w) (sv_maxclients w) (g_entities w) (client_name w)
    (random_source w) (random_drawn w) h
    (py_initialized w) (gil_depth w) (py_refs w) (trace w).

Definition set_initialized (b : bool) (w : world) : world :=
  mk_world (cmd_argv w) (sv_maxclients w) (g_entities w) (client_name w)
    (random_source w) (random_drawn w) (custom_command_handler w)
    b (gil_depth w) (py_refs w) (trace w).

Definition set_gil_depth (n : nat) (w : world) : world :=
  mk_world (cmd_argv w) (sv_maxclients w) (g_entities w) (client_name w)
    (random_source w) (random_drawn w) (custom_command_handler w)
    (py_initialized w) n (py_refs w) (trace w).

Definition set_py_refs (n : nat) (w : world) : world :=
  mk_world (cmd_argv w) (sv_maxclients w) (g_entities w) (client_name w)
    (random_source w) (random_drawn w) (custom_command_handler w)
    (py_initialized w) (gil_depth w) n (trace w).

(** [log e w]: the world after one more recorded call, nothing else changed. *)
Definition log (e : effect) (w : world) : world :=
  mk_world (cmd_argv w) (sv_maxclients w) (g_entities w) (client_name w)
    (random_source w) (random_drawn w) (custom_command_handler w)
    (py_initialized w) (gil_depth w) (py_refs w) (trace w ++ [e]).

(** ** The command monad *)

Definition M (A : Type) : Type := world -> A * world.

Definition ret {A : Type} (a : A) : M A := fun w => (a, w).

Definition bind {A B : Type} (c : M A) (k : A -> M B) : M B :=
  fun w => let (a, w1) := c w in k a w1.

Declare Scope cmd_scope.
Delimit Scope cmd_scope with cmd.
Bind Scope cmd_scope with M.

Notation "x <- c ;; k" := (bind c (fun x => k))
  (at level 100, c at next level, right associativity) : cmd_scope.
Notation "c ;; k" := (bind c (fun _ => k))
  (at level 100, right associativity) : cmd_scope.

(** The world a command leaves behind. *)
Definition exec (c : M unit) (w : world) : world := snd (c w).

Definition emit (e : effect) : M unit := fun w => (tt, log e w).

(** ** The host engine's interface *)

(** [Cmd_Argc()], [Cmd_Argv(n)] (the empty string past the last token) and
    [Cmd_Args()] (the tokens after the command name, joined by spaces). *)
Definition Cmd_Argc : M Z :=
  fun w => (Z.of_nat (List.length (cmd_argv w)), w).

Definition Cmd_Argv (n : nat) : M string :=
  fun w => (nth n (cmd_argv w) EmptyString, w).

Definition Cmd_Args : M string :=
  fun w => (String.concat " " (tl (cmd_argv w)), w).

(** [Com_Printf]: text on the server's own console. *)
Definition Com_Printf (text : string) : M unit := emit (Ev_Com_Printf text).

(** [SV_SendServerCommand(cl, ...)]: a server command to one client, or to
    every client when [cl] is [NULL] ([None]). *)
Definition SV_SendServerCommand (cl : option Z) (text : string) : M unit :=
  emit (Ev_SV_SendServerCommand cl text).

(** [G_AddEvent(&g_entities[i], event, eventParm)]. *)
Definition G_AddEvent (i : Z) (event : entity_event_t) (parm : Int.int) : M unit :=
  emit (Ev_G_AddEvent i event parm).

(** [sv_maxclients->integer]. *)
Definition sv_maxclients_integer : M Int.int :=
  fun w => (sv_maxclients w, w).

(** [svs->clients[i].name]. *)
Definition svs_clients_name (i : Z) : M string :=
  fun w => (client_name w i, w).

(** Reading [g_entities[i]] and storing into one of its fields. *)
Definition read_entity (i : Z) : M gentity_t :=
  fun w => (g_entities w i, w).

Definition store (i : Z) (e : gentity_t) (g : Z -> gentity_t) : Z -> gentity_t :=
  fun j => if j =? i then e else g j.

Definition modify_entity (i : Z) (f : gentity_t -> gentity_t) : M unit :=
  fun w => (tt, set_entities (store i (f (g_entities w i)) (g_entities w)) w).

Definition with_health (h : Int.int) (e : gentity_t) : gentity_t :=
  mk_gentity (inuse e) h (velocity0 e) (velocity1 e) (velocity2 e) (s_number e).

Definition with_velocity0 (v : float) (e : gentity_t) : gentity_t :=
  mk_gentity (inuse e) (health e) v (velocity1 e) (velocity2 e) (s_number e).

Definition with_velocity1 (v : float) (e : gentity_t) : gentity_t :=
  mk_gentity (inuse e) (health e) (velocity0 e) v (velocity2 e) (s_number e).

Definition with_velocity2 (v : float) (e : gentity_t) : gentity_t :=
  mk_gentity (inuse e) (health e) (velocity0 e) (velocity1 e) v (s_number e).

(** ** Parts of the extension that live in other files *)

(** Modelled from the spec: [RandomFloatWithNegative] is defined outside
    [commands.c]; section 4.3 only says it draws from a symmetric range.
    Each call hands out the next value of [random_source]. *)
Definition RandomFloatWithNegative : M float :=
  fun w => (random_source w (random_drawn w),
            set_random_drawn (S (random_drawn w)) w).

(** Modelled from the spec: [DebugPrint] comes from [common.h]; it writes to
    the debug output and touches nothing else. *)
Definition DebugPrint (text : string) : M unit := emit (Ev_DebugPrint text).

(** Modelled from the spec: [RconDispatcher] is defined outside
    [commands.c]; section 4.4 has it forward the text into the interpreter's
    command entry point. *)
Definition RconDispatcher (cmd : string) : M unit := emit (Ev_RconDispatcher cmd).

(** Modelled from the spec: [PyMinqlx_IsInitialized] is defined outside
    [commands.c]; it reports the state of the Interpreter Session. *)
Definition PyMinqlx_IsInitialized : M bool :=
  fun w => (py_initialized w, w).

(** Modelled from the spec: [PyMinqlx_Initialize] is defined outside
    [commands.c]; section 4.4 has it take the session from Uninitialized to
    Initialized, with the command handler unregistered at session start, and
    fail without a change when the session is already initialized.  The
    result says whether it succeeded. *)
Definition PyMinqlx_Initialize : M bool :=
  fun w =>
    if py_initialized w then (false, log Ev_PyMinqlx_Initialize w)
    else (true, log Ev_PyMinqlx_Initialize
                  (set_initialized true (set_handler None w))).

(** Modelled from the spec: [PyMinqlx_Finalize] is defined outside
    [commands.c]; section 4.4 has it take the session from Initialized to
    Uninitialized and invalidate the registered command handler; on a
    session that is not initialized it changes nothing. *)
Definition PyMinqlx_Finalize : M bool :=
  fun w =>
    if py_initialized w
    then (true, log Ev_PyMinqlx_Finalize
                  (set_initialized false (set_handler None w)))
    else (false, log Ev_PyMinqlx_Finalize w).

(** Modelled from the spec: [NewGameDispatcher] is defined outside
    [commands.c]; it delivers the new-game notification to the interpreter
    with the given parameter. *)
Definition NewGameDispatcher (restarted : Int.int) : M unit :=
  emit (Ev_NewGameDispatcher restarted).

(** ** The CPython calls [PyCommand] makes *)

(** [PyGILState_Ensure()]: takes the interpreter lock for this thread and
    says whether the thread held it already. *)
Definition PyGILState_Ensure : M PyGILState_STATE :=
  fun w =>
    (match gil_depth w with O => PyGILState_UNLOCKED | S _ => PyGILState_LOCKED end,
     log Ev_PyGILState_Ensure (set_gil_depth (S (gil_depth w)) w)).

(** [PyGILState_Release(gstate)]: undoes the matching [PyGILState_Ensure]. *)
Definition PyGILState_Release (gstate : PyGILState_STATE) : M unit :=
  fun w => (tt, log Ev_PyGILState_Release (set_gil_depth (pred (gil_depth w)) w)).

(** [PyObject_CallFunction(f, "s", arg)]: a new reference to the result, or
    [NULL] when the call raised. *)
Definition PyObject_CallFunction (f : PyCallable) (arg : string) : M (option PyObject) :=
  fun w =>
    let r := f arg in
    (r, log (Ev_PyObject_CallFunction arg r)
          (match r with
           | Some _ => set_py_refs (S (py_refs w)) w
           | None => w
           end)).

(** [Py_XDECREF(o)]: gives the reference back; nothing to do for [NULL]. *)
Definition Py_XDECREF (o : option PyObject) : M unit :=
  fun w =>
    (tt, log (Ev_Py_XDECREF o)
           (match o with
            | Some _ => set_py_refs (pred (py_refs w)) w
            | None => w
            end)).

(** [result == Py_False]: pointer identity with the [False] singleton. *)
Definition is_Py_False (o : option PyObject) : bool :=
  match o with
  | Some Py_False => true
  | _ => false
  end.

(** ** The texts the commands print *)

Local Open Scope string_scope.

(** ["Usage: %s <client_id> [damage]\n"] and ["Usage: %s <client_id>\n"]. *)
Definition usage_Slap (cmd : string) : string :=
  "Usage: " ++ cmd ++ " <client_id> [damage]" ++ nl.

Definition usage_Slay (cmd : string) : string :=
  "Usage: " ++ cmd ++ " <client_id>" ++ nl.

(** ["client_id must be a number between 0 and %d\n."]. *)
Definition msg_client_id_range (maxclients : Int.int) : string :=
  "client_id must be a number between 0 and " ++ fmt_d maxclients ++ nl ++ ".".

(** ["The player is currently not active.\n"]. *)
Definition msg_not_active : string :=
  "The player is currently not active." ++ nl.

(** ["print \"%s^7 was slapped for %d damage!\n\"\n"]. *)
Definition msg_slapped_for (name : string) (dmg : Int.int) : string :=
  "print " ++ dq ++ name ++ "^7 was slapped for " ++ fmt_d dmg ++ " damage!"
    ++ nl ++ dq ++ nl.

(** ["print \"%s^7 was slapped!\n\"\n"]. *)
Definition msg_slapped (name : string) : string :=
  "print " ++ dq ++ name ++ "^7 was slapped!" ++ nl ++ dq ++ nl.

(** ["print \"%s^7 was slain!\n\"\n"]. *)
Definition msg_slain (name : string) : string :=
  "print " ++ dq ++ name ++ "^7 was slain!" ++ nl ++ dq ++ nl.

(** ["Slaying '%s'!\n"]. *)
Definition msg_slaying (name : string) : string :=
  "Slaying '" ++ name ++ "'!" ++ nl.

(** ["The command failed to be executed. pyminqlx found no handler.\n"]. *)
Definition msg_no_handler : string :=
  "The command failed to be executed. pyminqlx found no handler." ++ nl.

Local Close Scope string_scope.

(** ** The commands of [commands.c] *)

Local Open Scope cmd_scope.




Definition Slap : M unit :=
  argc <- Cmd_Argc ;;
  if argc <? 2 then
    cmd <- Cmd_Argv 0 ;;
    Com_Printf (usage_Slap cmd)
  else
    arg1 <- Cmd_Argv 1 ;;
    let i := atoi arg1 in
    maxclients <- sv_maxclients_integer ;;
    if Int.lt i (Int.repr 0) || Int.lt maxclients i then
      Com_Printf (msg_client_id_range maxclients)
    else
      dmg <- (if 2 <? argc
              then (arg2 <- Cmd_Argv 2 ;; ret (atoi arg2))
              else ret (Int.repr 0)) ;;
      let idx := Int.signed i in
      ent <- read_entity idx ;;
      if inuse ent && Int.lt (Int.repr 0) (health ent) then
        Com_Printf ("Slapping..." ++ nl)%string ;;
        name <- svs_clients_name idx ;;
        (if Int.nonzero dmg
         then SV_SendServerCommand None (msg_slapped_for name dmg)
         else SV_SendServerCommand None (msg_slapped name)) ;;
        r0 <- RandomFloatWithNegative ;;
        modify_entity idx (fun e => with_velocity0 (fadd (velocity0 e) (fmul r0 f200)) e) ;;
        r1 <- RandomFloatWithNegative ;;
        modify_entity idx (fun e => with_velocity1 (fadd (velocity1 e) (fmul r1 f200)) e) ;;
        modify_entity idx (fun e => with_velocity2 (fadd (velocity2 e) f300) e) ;;
        modify_entity idx (fun e => with_health (Int.sub (health e) dmg) e) ;;
        ent' <- read_entity idx ;;
        if Int.lt (Int.repr 0) (health ent')
        then G_AddEvent idx EV_PAIN (Int.repr 99)
        else G_AddEvent idx EV_DEATH1 (s_number ent')
      else
        Com_Printf msg_not_active.

Definition Slay : M unit :=
  argc <- Cmd_Argc ;;
  if argc <? 2 then
    cmd <- Cmd_Argv 0 ;;
    Com_Printf (usage_Slay cmd)
  else
    arg1 <- Cmd_Argv 1 ;;
    let i := atoi arg1 in
    maxclients <- sv_maxclients_integer ;;
    if Int.lt i (Int.repr 0) || Int.lt maxclients i then
      Com_Printf (msg_client_id_range maxclients)
    else
      let idx := Int.signed i in
      ent <- read_entity idx ;;
      if inuse ent && Int.lt (Int.repr 0) (health ent) then
        Com_Printf ("Slaying player..." ++ nl)%string ;;
        name <- svs_clients_name idx ;;
        SV_SendServerCommand None (msg_slain name) ;;
        DebugPrint (msg_slaying name) ;;
        modify_entity idx (with_health (Int.repr (-40))) ;;
        ent' <- read_entity idx ;;
        G_AddEvent idx EV_GIB_PLAYER (s_number ent')
      else
        Com_Printf msg_not_active.

Definition PyRcon : M unit :=
  args <- Cmd_Args ;;
  RconDispatcher args.

Definition PyCommand : M unit :=
  fun w =>
    match custom_command_handler w with
    | None => ret tt w
    | Some handler =>
        (gstate <- PyGILState_Ensure ;;
         args <- Cmd_Args ;;
         result <- PyObject_CallFunction handler args ;;
         (if is_Py_False result
          then Com_Printf msg_no_handler
          else ret tt) ;;
         Py_XDECREF result ;;
         PyGILState_Release gstate) w
    end.

Definition RestartPython : M unit :=
  Com_Printf ("Restarting Python..." ++ nl)%string ;;
  initialized <- PyMinqlx_IsInitialized ;;
  (if initialized then (_ <- PyMinqlx_Finalize ;; ret tt) else ret tt) ;;
  _ <- PyMinqlx_Initialize ;;
  NewGameDispatcher (Int.repr 0).

Local Close Scope cmd_scope.

(** ** Reading an invocation and a run *)

(** What the commands read off the command line: the number of tokens, the
    client id ([atoi(Cmd_Argv(1))]), and Slap's damage ([atoi(Cmd_Argv(2))]
    when a third token is there, [0] otherwise). *)
Definition argc (w : world) : Z := Z.of_nat (List.length (cmd_argv w)).

Definition arg_client_id (w : world) : Int.int :=
  atoi (nth 1 (cmd_argv w) EmptyString).

Definition arg_damage (w : world) : Int.int :=
  if 2 <? argc w then atoi (nth 2 (cmd_argv w) EmptyString) else Int.repr 0.

(** The entity the client id addresses, [g_entities[i]]. *)
Definition target (w : world) : gentity_t :=
  g_entities w (Int.signed (arg_client_id w)).

(** The range test both commands apply to the client id. *)
Definition rejected_by_range_check (w : world) : Prop :=
  Int.signed (arg_client_id w) < 0 \/
  Int.signed (sv_maxclients w) < Int.signed (arg_client_id w).

Definition passes_range_check (w : world) : Prop :=
  0 <= Int.signed (arg_client_id w) <= Int.signed (sv_maxclients w).

(** The calls a command makes when run from [w]: what it adds to the trace. *)
Definition calls (c : M unit) (w : world) : list effect :=
  skipn (List.length (trace w)) (trace (exec c w)).

(** The target's health once the command has run. *)
Definition health_after (c : M unit) (w : world) : Z :=
  Int.signed (health (g_entities (exec c w) (Int.signed (arg_client_id w)))).

(** [a] is recorded before [b] in [l]. *)
Definition precedes (a b : effect) (l : list effect) : Prop :=
  exists l1 l2 l3, l = l1 ++ a :: l2 ++ b :: l3.

Definition count_calls (p : effect -> bool) (l : list effect) : nat :=
  List.length (filter p l).

Definition is_Com_Printf (e : effect) : bool :=
  match e with Ev_Com_Printf _ => true | _ => false end.

Definition is_SV_SendServerCommand (e : effect) : bool :=
  match e with Ev_SV_SendServerCommand _ _ => true | _ => false end.

Definition is_PyGILState_Ensure (e : effect) : bool :=
  match e with Ev_PyGILState_Ensure => true | _ => false end.

Definition is_PyGILState_Release (e : effect) : bool :=
  match e with Ev_PyGILState_Release => true | _ => false end.

Definition is_PyObject_CallFunction (e : effect) : bool :=
  match e with Ev_PyObject_CallFunction _ _ => true | _ => false end.

Definition is_NewGameDispatcher (e : effect) : bool :=
  match e with Ev_NewGameDispatcher _ => true | _ => false end.

(** The entity a slap leaves behind: the two random horizontal pushes, the
    fixed upward one, and the damage taken off the health. *)
Definition slapped (r0 r1 : float) (dmg : Int.int) (e : gentity_t) : gentity_t :=
  mk_gentity (inuse e) (Int.sub (health e) dmg)
    (fadd (velocity0 e) (fmul r0 f200)) (fadd (velocity1 e) (fmul r1 f200))
    (fadd (velocity2 e) f300) (s_number e).

(** The broadcast and the event of a slap. *)
Definition slap_broadcast (name : string) (dmg : Int.int) : effect :=
  Ev_SV_SendServerCommand None
    (if Int.nonzero dmg then msg_slapped_for name dmg else msg_slapped name).

Definition pain_event (idx : Z) : effect :=
  Ev_G_AddEvent idx EV_PAIN (Int.repr 99).

Definition death_event (idx : Z) (e : gentity_t) : effect :=
  Ev_G_AddEvent idx EV_DEATH1 (s_number e).

Definition slap_event (idx : Z) (e : gentity_t) : effect :=
  if Int.lt (Int.repr 0) (health e) then pain_event idx else death_event idx e.

(** Everything of the world a slap or a slay never writes. *)
Record same_host (w w' : world) : Prop := mk_same_host {
  same_argv : cmd_argv w' = cmd_argv w;
  same_maxclients : sv_maxclients w' = sv_maxclients w;
  same_names : client_name w' = client_name w;
  same_random_source : random_source w' = random_source w;
  same_handler : custom_command_handler w' = custom_command_handler w;
  same_initialized : py_initialized w' = py_initialized w;
  same_gil : gil_depth w' = gil_depth w;
  same_refs : py_refs w' = py_refs w
}.

(** ** More readings, for what the commands do as a whole *)

Definition is_G_AddEvent (e : effect) : bool :=
  match e with Ev_G_AddEvent _ _ _ => true | _ => false end.

(** The four tests a slap or a slay has to pass before it acts: a client
    id is given, it passes the range check, the entity it addresses is in
    use, and its health is positive. *)
Definition live_target (w : world) : Prop :=
  2 <= argc w /\ passes_range_check w /\
  inuse (target w) = true /\ 0 < Int.signed (health (target w)).

(** How many slaps of damage [d > 0] it takes to bring a health [h] to
    zero or below: [h / d] rounded up. *)
Definition slaps_to_kill (h d : Z) : Z := (h + d - 1) / d.

(** Text that [atoi] stops at: it is empty or starts with something that
    is not a digit. *)
Definition no_leading_digit (s : string) : bool :=
  match s with
  | String c _ => match digit_of c with Some _ => false | None => true end
  | EmptyString => true
  end.

(** A token that holds no number for [atoi]: after the white space it
    skips and the sign it accepts there is no digit.  This is when
    [strtol] converts nothing. *)
Definition holds_no_number (s : string) : bool :=
  match skip_space s with
  | String "-"%char r => no_leading_digit r
  | String "+"%char r => no_leading_digit r
  | t => no_leading_digit t
  end.


(** Text made of white space only. *)
Fixpoint all_space (s : string) : bool :=
  match s with
  | String c r => isspace c && all_space r
  | EmptyString => true
  end.

(** ** Sample worlds

    A server with [sv_maxclients = 2]: entity 0 is a player in the game with
    the given health, entity 1 is a free slot, entity 2 is in use with
    health 100.  No handler is registered and the interpreter is down. *)

Definition f0 : float := S754_zero false.

Definition sample_entities (h0 : Z) (j : Z) : gentity_t :=
  if j =? 0 then mk_gentity true (Int.repr h0) f0 f0 f0 (Int.repr 0)
  else if j =? 2 then mk_gentity true (Int.repr 100) f0 f0 f0 (Int.repr 2)
  else mk_gentity false (Int.repr 0) f0 f0 f0 (Int.repr j).

Definition sample_names (j : Z) : string :=
  if j =? 0 then "Anarki"%string else "Sarge"%string.

Definition sample_random (n : nat) : float :=
  S754_finite (Nat.even n) 8388608 (-24).

Definition server (argv : list string) (h0 : Z) : world :=
  mk_world argv (Int.repr 2) (sample_entities h0) sample_names
    sample_random 0 None false 0 0 [].

(** The same server with the interpreter up and a handler that declines
    the command [no], raises on [boom], and accepts anything else. *)
Definition sample_handler : PyCallable :=
  fun args =>
    if String.eqb args "no" then Some Py_False
    else if String.eqb args "boom" then None
    else Some (Py_Other 1).

Definition scripted_server (argv : list string) : world :=
  set_initialized true (set_handler (Some sample_handler) (server argv 50)).

(** ** Proof tools *)

Ltac unfold_cmd :=
  cbv [exec Slap Slay bind ret emit Cmd_Argc Cmd_Argv Cmd_Args
       sv_maxclients_integer svs_clients_name read_entity modify_entity
       Com_Printf SV_SendServerCommand G_AddEvent DebugPrint
       RandomFloatWithNegative].

Ltac world_fields :=
  cbn [g_entities set_entities set_random_drawn log random_source random_drawn
       trace cmd_argv sv_maxclients client_name custom_command_handler
       py_initialized gil_depth py_refs fst snd].

(** * Facts *)

(** ** Machine integers *)

Lemma Int_lt_signed (x y : Int.int) :
  Int.lt x y = (Int.signed x <? Int.signed y).
Proof. unfold Int.lt, Int.signed. apply (word.signed_lts (ok := Naive.word32_ok)). Qed.

Lemma Int_signed_range (x : Int.int) : Int.in_range (Int.signed x).
Proof.
  unfold Int.in_range, Int.min_signed, Int.max_signed, Int.signed.
  pose proof (word.signed_range (word_ok := Naive.word32_ok) x) as H.
  change (-2 ^ (32 - 1)) with (-2147483648) in H.
  change (2 ^ (32 - 1)) with 2147483648 in H. lia.
Qed.

Lemma Int_wrap_in_range (z : Z) : Int.in_range z -> Int.wrap z = z.
Proof.
  unfold Int.in_range, Int.min_signed, Int.max_signed, Int.wrap. intros H.
  rewrite Z.mod_small; lia.
Qed.

Lemma Int_signed_repr (z : Z) : Int.signed (Int.repr z) = Int.wrap z.
Proof.
  unfold Int.signed, Int.repr.
  rewrite (word.signed_of_Z (ok := Naive.word32_ok)). reflexivity.
Qed.

Lemma Int_signed_sub (x y : Int.int) :
  Int.signed (Int.sub x y) = Int.wrap (Int.signed x - Int.signed y).
Proof.
  unfold Int.signed, Int.sub.
  rewrite (word.signed_sub (word_ok := Naive.word32_ok)). reflexivity.
Qed.

Lemma Int_signed_inj (x y : Int.int) : Int.signed x = Int.signed y -> x = y.
Proof. apply (word.signed_inj (word_ok := Naive.word32_ok)). Qed.

Lemma Int_nonzero_signed (x : Int.int) :
  Int.nonzero x = negb (Int.signed x =? 0).
Proof.
  unfold Int.nonzero. f_equal.
  destruct (Z.eqb_spec (Int.signed x) 0) as [E | E].
  - assert (x = Int.repr 0) as -> by (apply Int_signed_inj; rewrite E; reflexivity).
    reflexivity.
  - destruct (word.eqb_spec (word_ok := Naive.word32_ok) x (Int.repr 0)) as [-> | N];
      [ | reflexivity].
    exfalso. apply E. reflexivity.
Qed.

Lemma Int_sub_zero (x d : Int.int) : Int.signed d = 0 -> Int.sub x d = x.
Proof.
  intros H. apply Int_signed_inj. rewrite Int_signed_sub, H, Z.sub_0_r.
  apply Int_wrap_in_range, Int_signed_range.
Qed.

(** ** The entity table *)

Lemma store_same i e g : store i e g i = e.
Proof. unfold store. rewrite Z.eqb_refl. reflexivity. Qed.

Lemma store_other i e g j : j <> i -> store i e g j = g j.
Proof. unfold store. intros H. apply Z.eqb_neq in H. rewrite H. reflexivity. Qed.

(** ** The trace *)

Lemma skipn_length_app {A : Type} (l k : list A) :
  skipn (List.length l) (l ++ k) = k.
Proof. induction l as [|x l IH]; [reflexivity | exact IH]. Qed.

Lemma calls_of_trace c w l : trace (exec c w) = trace w ++ l -> calls c w = l.
Proof. unfold calls. intros ->. apply skipn_length_app. Qed.

Lemma calls_of_log c w e : exec c w = log e w -> calls c w = [e].
Proof. intros H. apply calls_of_trace. rewrite H. reflexivity. Qed.

(** ** The guards of Slap and Slay *)

Lemma range_guard_true w :
  rejected_by_range_check w ->
  Int.lt (arg_client_id w) (Int.repr 0) || Int.lt (sv_maxclients w) (arg_client_id w) = true.
Proof.
  unfold rejected_by_range_check. intros H.
  rewrite !Int_lt_signed. change (Int.signed (Int.repr 0)) with 0.
  apply orb_true_iff. rewrite !Z.ltb_lt. exact H.
Qed.

Lemma range_guard_false w :
  passes_range_check w ->
  Int.lt (arg_client_id w) (Int.repr 0) || Int.lt (sv_maxclients w) (arg_client_id w) = false.
Proof.
  unfold passes_range_check. intros H.
  rewrite !Int_lt_signed. change (Int.signed (Int.repr 0)) with 0.
  apply orb_false_iff. rewrite !Z.ltb_ge. lia.
Qed.

Lemma range_check_cases w : rejected_by_range_check w \/ passes_range_check w.
Proof. unfold rejected_by_range_check, passes_range_check. lia. Qed.

Lemma active_guard_true e :
  inuse e = true -> 0 < Int.signed (health e) ->
  inuse e && Int.lt (Int.repr 0) (health e) = true.
Proof.
  intros U H. rewrite U, Int_lt_signed. change (Int.signed (Int.repr 0)) with 0.
  apply Z.ltb_lt in H. rewrite H. reflexivity.
Qed.

Lemma active_guard_false e :
  inuse e = false \/ Int.signed (health e) <= 0 ->
  inuse e && Int.lt (Int.repr 0) (health e) = false.
Proof.
  intros H. apply andb_false_iff. rewrite Int_lt_signed.
  change (Int.signed (Int.repr 0)) with 0. rewrite Z.ltb_ge. exact H.
Qed.

(** ** Slap, path by path *)

Lemma Slap_usage w :
  argc w < 2 ->
  exec Slap w = log (Ev_Com_Printf (usage_Slap (nth 0 (cmd_argv w) EmptyString))) w.
Proof.
  intros H. apply Z.ltb_lt in H. unfold argc in H.
  unfold_cmd. rewrite H. reflexivity.
Qed.

Lemma Slap_out_of_range w :
  2 <= argc w -> rejected_by_range_check w ->
  exec Slap w = log (Ev_Com_Printf (msg_client_id_range (sv_maxclients w))) w.
Proof.
  intros H R. apply Z.ltb_ge in H. unfold argc in H.
  apply range_guard_true in R. unfold arg_client_id in R.
  unfold_cmd. rewrite H, R. reflexivity.
Qed.

Lemma Slap_not_active w :
  2 <= argc w -> passes_range_check w ->
  inuse (target w) = false \/ Int.signed (health (target w)) <= 0 ->
  exec Slap w = log (Ev_Com_Printf msg_not_active) w.
Proof.
  intros H R A. apply Z.ltb_ge in H. unfold argc in H.
  apply range_guard_false in R. apply active_guard_false in A.
  unfold target, arg_client_id in *.
  unfold_cmd. rewrite H, R.
  destruct (2 <? _); cbv beta iota; rewrite A; reflexivity.
Qed.

Lemma Slap_active w :
  2 <= argc w -> passes_range_check w ->
  inuse (target w) = true -> 0 < Int.signed (health (target w)) ->
  let idx := Int.signed (arg_client_id w) in
  let e' := slapped (random_source w (random_drawn w))
                    (random_source w (S (random_drawn w)))
                    (arg_damage w) (target w) in
  let w' := exec Slap w in
  g_entities w' idx = e' /\
  (forall j, j <> idx -> g_entities w' j = g_entities w j) /\
  trace w' = trace w ++ [Ev_Com_Printf ("Slapping..." ++ nl);
                         slap_broadcast (client_name w idx) (arg_damage w);
                         slap_event idx e'] /\
  random_drawn w' = S (S (random_drawn w)) /\
  same_host w w'.
Proof.
  intros H R U A. apply Z.ltb_ge in H. unfold argc in H.
  apply range_guard_false in R. pose proof (active_guard_true _ U A) as G.
  clear U A.
  unfold target, arg_damage, argc, arg_client_id in *.
  unfold_cmd. rewrite H, R. clear H R.
  destruct (2 <? _); cbv beta iota; rewrite G; clear G; cbv beta iota.
  all: destruct (Int.nonzero _) eqn:D; cbv beta iota; world_fields;
    rewrite ?store_same.
  all: unfold slap_broadcast, slap_event, pain_event, death_event, slapped;
    cbn [health inuse velocity0 velocity1 velocity2 s_number
         with_health with_velocity0 with_velocity1 with_velocity2];
    rewrite ?D.
  all: destruct (Int.lt (Int.repr 0) (Int.sub _ _)) eqn:L; world_fields;
    rewrite ?store_same, <- ?app_assoc; cbn [app].
  all: repeat split; try reflexivity.
  all: intros j Hj; rewrite !store_other by exact Hj; reflexivity.
Qed.

(** ** Slay, path by path *)

Lemma Slay_usage w :
  argc w < 2 ->
  exec Slay w = log (Ev_Com_Printf (usage_Slay (nth 0 (cmd_argv w) EmptyString))) w.
Proof.
  intros H. apply Z.ltb_lt in H. unfold argc in H.
  unfold_cmd. rewrite H. reflexivity.
Qed.

Lemma Slay_out_of_range w :
  2 <= argc w -> rejected_by_range_check w ->
  exec Slay w = log (Ev_Com_Printf (msg_client_id_range (sv_maxclients w))) w.
Proof.
  intros H R. apply Z.ltb_ge in H. unfold argc in H.
  apply range_guard_true in R. unfold arg_client_id in R.
  unfold_cmd. rewrite H, R. reflexivity.
Qed.

Lemma Slay_not_active w :
  2 <= argc w -> passes_range_check w ->
  inuse (target w) = false \/ Int.signed (health (target w)) <= 0 ->
  exec Slay w = log (Ev_Com_Printf msg_not_active) w.
Proof.
  intros H R A. apply Z.ltb_ge in H. unfold argc in H.
  apply range_guard_false in R. apply active_guard_false in A.
  unfold target, arg_client_id in *.
  unfold_cmd. rewrite H, R, A. reflexivity.
Qed.

Lemma Slay_active w :
  2 <= argc w -> passes_range_check w ->
  inuse (target w) = true -> 0 < Int.signed (health (target w)) ->
  let idx := Int.signed (arg_client_id w) in
  let w' := exec Slay w in
  g_entities w' idx = with_health (Int.repr (-40)) (target w) /\
  (forall j, j <> idx -> g_entities w' j = g_entities w j) /\
  trace w' = trace w ++ [Ev_Com_Printf ("Slaying player..." ++ nl);
                         Ev_SV_SendServerCommand None (msg_slain (client_name w idx));
                         Ev_DebugPrint (msg_slaying (client_name w idx));
                         Ev_G_AddEvent idx EV_GIB_PLAYER (s_number (target w))] /\
  random_drawn w' = random_drawn w /\
  same_host w w'.
Proof.
  intros H R U A. apply Z.ltb_ge in H. unfold argc in H.
  apply range_guard_false in R. pose proof (active_guard_true _ U A) as G.
  clear U A. unfold target, arg_client_id in *.
  unfold_cmd. rewrite H, R, G. clear H R G.
  world_fields.
  rewrite ?store_same, <- ?app_assoc. cbn [app s_number with_health].
  repeat split; try reflexivity.
  intros j Hj. rewrite store_other by exact Hj. reflexivity.
Qed.

(** ** The interpreter bridge *)

Lemma PyCommand_unregistered w :
  custom_command_handler w = None -> PyCommand w = (tt, w).
Proof. intros H. unfold PyCommand. rewrite H. reflexivity. Qed.

Lemma PyCommand_registered w handler :
  custom_command_handler w = Some handler ->
  let args := String.concat " " (tl (cmd_argv w)) in
  let result := handler args in
  let w' := exec PyCommand w in
  trace w' = trace w ++
    [Ev_PyGILState_Ensure; Ev_PyObject_CallFunction args result] ++
    (if is_Py_False result then [Ev_Com_Printf msg_no_handler] else []) ++
    [Ev_Py_XDECREF result; Ev_PyGILState_Release] /\
  gil_depth w' = gil_depth w /\
  py_refs w' = py_refs w /\
  g_entities w' = g_entities w /\
  custom_command_handler w' = custom_command_handler w /\
  py_initialized w' = py_initialized w.
Proof.
  intros H. unfold exec, PyCommand. rewrite H.
  cbv [bind ret emit PyGILState_Ensure Cmd_Args PyObject_CallFunction Com_Printf
       Py_XDECREF PyGILState_Release].
  cbn [cmd_argv log set_gil_depth].
  destruct (handler _) as [[|a]|]; cbn; rewrite <- ?app_assoc; cbn [app];
    repeat split; try reflexivity; exact H.
Qed.

Lemma RestartPython_run w :
  let w' := exec RestartPython w in
  trace w' = trace w ++
    [Ev_Com_Printf ("Restarting Python..." ++ nl)] ++
    (if py_initialized w then [Ev_PyMinqlx_Finalize] else []) ++
    [Ev_PyMinqlx_Initialize; Ev_NewGameDispatcher (Int.repr 0)] /\
  py_initialized w' = true /\
  custom_command_handler w' = None /\
  g_entities w' = g_entities w.
Proof.
  cbv [exec RestartPython bind ret emit Com_Printf PyMinqlx_IsInitialized
       PyMinqlx_Finalize PyMinqlx_Initialize NewGameDispatcher].
  cbn [py_initialized log].
  destruct (py_initialized w) eqn:E; cbn; rewrite ?E; cbn;
    rewrite <- ?app_assoc; cbn [app]; repeat split; reflexivity.
Qed.

Lemma calls_of_nothing c w : exec c w = w -> calls c w = [].
Proof.
  intros H. apply calls_of_trace. rewrite H. symmetry. apply app_nil_r.
Qed.

Lemma is_Py_False_iff (o : option PyObject) :
  is_Py_False o = true <-> o = Some Py_False.
Proof.
  destruct o as [[|a]|]; cbn; split; intros H; try reflexivity; discriminate H.
Qed.

(** * The claims *)

(** ** The interpreter bridge *)

(** C1.  Whatever state the Interpreter Session is in, after
    [RestartPython] it is Initialized, and the run delivers exactly one
    new-game notification, with the parameter [0].  [PyMinqlx_Initialize]
    is always called; when the session was Initialized,
    [PyMinqlx_Finalize] is called before it, and when it was not,
    [PyMinqlx_Finalize] is not called at all. *)
Theorem RestartPython_ends_initialized_with_one_new_game (w : world) :
  let run := calls RestartPython w in
  py_initialized (exec RestartPython w) = true /\
  filter is_NewGameDispatcher run = [Ev_NewGameDispatcher (Int.repr 0)] /\
  In Ev_PyMinqlx_Initialize run /\
  (py_initialized w = true ->
   precedes Ev_PyMinqlx_Finalize Ev_PyMinqlx_Initialize run) /\
  (py_initialized w = false -> ~ In Ev_PyMinqlx_Finalize run).
Proof.
  destruct (RestartPython_run w) as (T & I & _ & _).
  apply calls_of_trace in T. cbv zeta. rewrite T, I. clear T I.
  destruct (py_initialized w); cbn [app filter is_NewGameDispatcher].
  - repeat split.
    + right. right. left. reflexivity.
    + intros _. exists [Ev_Com_Printf ("Restarting Python..." ++ nl)%string], [],
        [Ev_NewGameDispatcher (Int.repr 0)]. reflexivity.
    + intros H. discriminate H.
  - repeat split.
    + right. left. reflexivity.
    + intros H. discriminate H.
    + intros _ [H | [H | [H | []]]]; discriminate H.
Qed.

Lemma RestartPython_ends_initialized_with_one_new_game_witness :
  precedes Ev_PyMinqlx_Finalize Ev_PyMinqlx_Initialize
    (calls RestartPython (scripted_server ["restart_python"%string])) /\
  ~ In Ev_PyMinqlx_Finalize
    (calls RestartPython (server ["restart_python"%string] 50)).
Proof.
  split.
  - apply (RestartPython_ends_initialized_with_one_new_game
             (scripted_server ["restart_python"%string])). reflexivity.
  - apply (RestartPython_ends_initialized_with_one_new_game
             (server ["restart_python"%string] 50)). reflexivity.
Defined.

(** C2.  When a handler is registered, [PyCommand] takes the interpreter
    lock once, before it calls the handler, and gives it back once, as the
    last thing it does; this holds for every result of the call, [NULL]
    (the handler raised) included.  The reference to the result is released
    after the call and before the lock is given back, so the run leaves the
    lock depth and the number of references held as it found them. *)
Theorem PyCommand_holds_lock_around_handler (w : world) (handler : PyCallable) :
  custom_command_handler w = Some handler ->
  let args := String.concat " " (tl (cmd_argv w)) in
  let result := handler args in
  let run := calls PyCommand w in
  precedes Ev_PyGILState_Ensure (Ev_PyObject_CallFunction args result) run /\
  precedes (Ev_PyObject_CallFunction args result) (Ev_Py_XDECREF result) run /\
  precedes (Ev_Py_XDECREF result) Ev_PyGILState_Release run /\
  count_calls is_PyGILState_Ensure run = 1%nat /\
  count_calls is_PyObject_CallFunction run = 1%nat /\
  count_calls is_PyGILState_Release run = 1%nat /\
  last run Ev_PyGILState_Ensure = Ev_PyGILState_Release /\
  gil_depth (exec PyCommand w) = gil_depth w /\
  py_refs (exec PyCommand w) = py_refs w.
Proof.
  intros H. destruct (PyCommand_registered w handler H) as (T & G & R & _).
  apply calls_of_trace in T. cbv zeta. rewrite T, G, R. clear T G R.
  set (args := String.concat " " (tl (cmd_argv w))).
  set (result := handler args).
  destruct (is_Py_False result); cbn [app]; repeat split.
  - exists [], [], [Ev_Com_Printf msg_no_handler; Ev_Py_XDECREF result;
                    Ev_PyGILState_Release]. reflexivity.
  - exists [Ev_PyGILState_Ensure], [Ev_Com_Printf msg_no_handler],
      [Ev_PyGILState_Release]. reflexivity.
  - exists [Ev_PyGILState_Ensure; Ev_PyObject_CallFunction args result;
            Ev_Com_Printf msg_no_handler], [], []. reflexivity.
  - exists [], [], [Ev_Py_XDECREF result; Ev_PyGILState_Release]. reflexivity.
  - exists [Ev_PyGILState_Ensure], [], [Ev_PyGILState_Release]. reflexivity.
  - exists [Ev_PyGILState_Ensure; Ev_PyObject_CallFunction args result], [], [].
    reflexivity.
Qed.

Lemma PyCommand_holds_lock_around_handler_witness :
  precedes (Ev_Py_XDECREF None) Ev_PyGILState_Release
    (calls PyCommand (scripted_server ["py_command"; "boom"]%string)) /\
  count_calls is_PyGILState_Release
    (calls PyCommand (scripted_server ["py_command"; "boom"]%string)) = 1%nat.
Proof.
  pose proof (PyCommand_holds_lock_around_handler
                (scripted_server ["py_command"; "boom"]%string)
                sample_handler eq_refl) as H.
  split; [exact (proj1 (proj2 (proj2 H))) | exact (proj1 (proj2 (proj2 (proj2 (proj2 (proj2 H))))))].
Defined.

(** C3.  With no handler registered [PyCommand] does nothing at all: no
    call into the interpreter, nothing printed, the world as it was.  With
    a handler registered the handler is called once; the diagnostic is
    printed, once, when the call returns [Py_False], and nothing is printed
    for any other result. *)
Theorem PyCommand_diagnostic_only_on_Py_False (w : world) :
  (custom_command_handler w = None ->
   exec PyCommand w = w /\ calls PyCommand w = []) /\
  (forall handler, custom_command_handler w = Some handler ->
     let result := handler (String.concat " " (tl (cmd_argv w))) in
     let run := calls PyCommand w in
     count_calls is_PyObject_CallFunction run = 1%nat /\
     (result = Some Py_False ->
      filter is_Com_Printf run = [Ev_Com_Printf msg_no_handler]) /\
     (result <> Some Py_False -> filter is_Com_Printf run = [])).
Proof.
  split.
  - intros H. assert (exec PyCommand w = w) as E.
    { unfold exec. rewrite (PyCommand_unregistered w H). reflexivity. }
    split; [exact E | exact (calls_of_nothing _ _ E)].
  - intros handler H. destruct (PyCommand_registered w handler H) as (T & _).
    apply calls_of_trace in T. cbv zeta. rewrite T. clear T.
    destruct (is_Py_False _) eqn:F; cbn [app]; repeat split.
    + intros N. apply is_Py_False_iff in F. contradiction.
    + intros E. apply is_Py_False_iff in E. congruence.
Qed.

Lemma PyCommand_diagnostic_only_on_Py_False_witness :
  calls PyCommand (server ["py_command"; "x"]%string 50) = [] /\
  filter is_Com_Printf (calls PyCommand (scripted_server ["py_command"; "no"]%string))
    = [Ev_Com_Printf msg_no_handler] /\
  filter is_Com_Printf (calls PyCommand (scripted_server ["py_command"; "ok"]%string))
    = [].
Proof.
  split; [ | split].
  - apply (PyCommand_diagnostic_only_on_Py_False (server ["py_command"; "x"]%string 50)).
    reflexivity.
  - apply (proj2 (PyCommand_diagnostic_only_on_Py_False
                    (scripted_server ["py_command"; "no"]%string))
             sample_handler eq_refl). reflexivity.
  - apply (proj2 (PyCommand_diagnostic_only_on_Py_False
                    (scripted_server ["py_command"; "ok"]%string))
             sample_handler eq_refl). discriminate.
Defined.

(** ** Slap and Slay: the target *)

Lemma health_after_eq c w e :
  g_entities (exec c w) (Int.signed (arg_client_id w)) = e ->
  health_after c w = Int.signed (health e).
Proof. unfold health_after. intros ->. reflexivity. Qed.

(** C5.  [Slay] on a client id that passes the range check, whose entity is
    in use with positive health, stores [-40] into the entity's health
    whatever the health was, leaves the entity's other fields and every
    other entity alone, and makes four calls: the console line, the
    broadcast (to all clients) that names the target, the debug line, and
    [G_AddEvent] with [EV_GIB_PLAYER]. *)
Theorem Slay_sets_fixed_health_and_gibs (w : world) :
  2 <= argc w -> passes_range_check w ->
  inuse (target w) = true -> 0 < Int.signed (health (target w)) ->
  let idx := Int.signed (arg_client_id w) in
  health_after Slay w = -40 /\
  g_entities (exec Slay w) idx = with_health (Int.repr (-40)) (target w) /\
  (forall j, j <> idx -> g_entities (exec Slay w) j = g_entities w j) /\
  calls Slay w =
    [Ev_Com_Printf ("Slaying player..." ++ nl);
     Ev_SV_SendServerCommand None (msg_slain (client_name w idx));
     Ev_DebugPrint (msg_slaying (client_name w idx));
     Ev_G_AddEvent idx EV_GIB_PLAYER (s_number (target w))].
Proof.
  intros H R U A. destruct (Slay_active w H R U A) as (E & O & T & _).
  cbv zeta. repeat split.
  - rewrite (health_after_eq _ _ _ E). reflexivity.
  - exact E.
  - exact O.
  - exact (calls_of_trace _ _ _ T).
Qed.

Lemma Slay_sets_fixed_health_and_gibs_witness :
  health_after Slay (server ["slay"; "0"]%string 1) = -40 /\
  health_after Slay (server ["slay"; "0"]%string 999) = -40.
Proof.
  split.
  - apply (Slay_sets_fixed_health_and_gibs (server ["slay"; "0"]%string 1)).
    + vm_compute. discriminate.
    + unfold passes_range_check. vm_compute. split; discriminate.
    + reflexivity.
    + reflexivity.
  - apply (Slay_sets_fixed_health_and_gibs (server ["slay"; "0"]%string 999)).
    + vm_compute. discriminate.
    + unfold passes_range_check. vm_compute. split; discriminate.
    + reflexivity.
    + reflexivity.
Defined.

(** C6.  When the client id fails the range check ([i < 0] or
    [i > sv_maxclients]), or the entity it addresses is not in use, [Slap]
    and [Slay] each do one thing: they print a line on the local console.
    The world is otherwise the one they started from, so no entity field is
    written, no event is added and nothing is broadcast. *)
Theorem Slap_Slay_bad_target_only_prints (w : world) :
  2 <= argc w ->
  rejected_by_range_check w \/ inuse (target w) = false ->
  exists text,
    (text = msg_client_id_range (sv_maxclients w) \/ text = msg_not_active) /\
    exec Slap w = log (Ev_Com_Printf text) w /\
    exec Slay w = log (Ev_Com_Printf text) w /\
    g_entities (exec Slap w) = g_entities w /\
    g_entities (exec Slay w) = g_entities w /\
    calls Slap w = [Ev_Com_Printf text] /\
    calls Slay w = [Ev_Com_Printf text].
Proof.
  intros H B.
  assert (forall text,
    exec Slap w = log (Ev_Com_Printf text) w ->
    exec Slay w = log (Ev_Com_Printf text) w ->
    exec Slap w = log (Ev_Com_Printf text) w /\
    exec Slay w = log (Ev_Com_Printf text) w /\
    g_entities (exec Slap w) = g_entities w /\
    g_entities (exec Slay w) = g_entities w /\
    calls Slap w = [Ev_Com_Printf text] /\
    calls Slay w = [Ev_Com_Printf text]) as K.
  { intros text P Y. repeat split; try assumption.
    - rewrite P. reflexivity.
    - rewrite Y. reflexivity.
    - exact (calls_of_log _ _ _ P).
    - exact (calls_of_log _ _ _ Y). }
  destruct (range_check_cases w) as [R | R].
  - exists (msg_client_id_range (sv_maxclients w)). split; [left; reflexivity | ].
    apply K; [apply Slap_out_of_range | apply Slay_out_of_range]; assumption.
  - destruct B as [B | B].
    + exists (msg_client_id_range (sv_maxclients w)). split; [left; reflexivity | ].
      apply K; [apply Slap_out_of_range | apply Slay_out_of_range]; assumption.
    + exists msg_not_active. split; [right; reflexivity | ].
      apply K; [apply Slap_not_active | apply Slay_not_active]; auto.
Qed.

Lemma Slap_Slay_bad_target_only_prints_witness :
  (exists text,
     (text = msg_client_id_range (sv_maxclients (server ["slap"; "3"; "10"]%string 50))
      \/ text = msg_not_active) /\
     exec Slap (server ["slap"; "3"; "10"]%string 50)
       = log (Ev_Com_Printf text) (server ["slap"; "3"; "10"]%string 50) /\
     exec Slay (server ["slap"; "3"; "10"]%string 50)
       = log (Ev_Com_Printf text) (server ["slap"; "3"; "10"]%string 50) /\
     g_entities (exec Slap (server ["slap"; "3"; "10"]%string 50))
       = g_entities (server ["slap"; "3"; "10"]%string 50) /\
     g_entities (exec Slay (server ["slap"; "3"; "10"]%string 50))
       = g_entities (server ["slap"; "3"; "10"]%string 50) /\
     calls Slap (server ["slap"; "3"; "10"]%string 50) = [Ev_Com_Printf text] /\
     calls Slay (server ["slap"; "3"; "10"]%string 50) = [Ev_Com_Printf text]).
Proof.
  apply (Slap_Slay_bad_target_only_prints (server ["slap"; "3"; "10"]%string 50)).
  - vm_compute. discriminate.
  - left. right. vm_compute. reflexivity.
Defined.

(** C10.  On a client id that passes the range check, whose entity is in
    use but has health [<= 0], [Slap] and [Slay] only print the
    "not active" line: the world is otherwise unchanged.  The line is the
    one they print for an entity that is not in use. *)
Theorem Slap_Slay_dead_target_only_prints (w : world) :
  2 <= argc w -> passes_range_check w ->
  inuse (target w) = true -> Int.signed (health (target w)) <= 0 ->
  exec Slap w = log (Ev_Com_Printf msg_not_active) w /\
  exec Slay w = log (Ev_Com_Printf msg_not_active) w /\
  g_entities (exec Slap w) = g_entities w /\
  g_entities (exec Slay w) = g_entities w /\
  calls Slap w = [Ev_Com_Printf msg_not_active] /\
  calls Slay w = [Ev_Com_Printf msg_not_active] /\
  (forall w0, 2 <= argc w0 -> passes_range_check w0 -> inuse (target w0) = false ->
     calls Slap w0 = calls Slap w /\ calls Slay w0 = calls Slay w).
Proof.
  intros H R U D.
  pose proof (Slap_not_active w H R (or_intror D)) as P.
  pose proof (Slay_not_active w H R (or_intror D)) as Y.
  pose proof (calls_of_log _ _ _ P) as CP.
  pose proof (calls_of_log _ _ _ Y) as CY.
  repeat split; try assumption.
  - rewrite P. reflexivity.
  - rewrite Y. reflexivity.
  - rewrite CP. apply calls_of_log, Slap_not_active; auto.
  - rewrite CY. apply calls_of_log, Slay_not_active; auto.
Qed.

Lemma Slap_Slay_dead_target_only_prints_witness :
  calls Slap (server ["slap"; "0"; "10"]%string (-10)) = [Ev_Com_Printf msg_not_active] /\
  calls Slay (server ["slap"; "0"; "10"]%string 0) = [Ev_Com_Printf msg_not_active].
Proof.
  split.
  - refine (proj1 (proj2 (proj2 (proj2 (proj2
      (Slap_Slay_dead_target_only_prints (server ["slap"; "0"; "10"]%string (-10)) _ _ _ _)))))).
    + vm_compute. discriminate.
    + unfold passes_range_check. vm_compute. split; discriminate.
    + reflexivity.
    + vm_compute. discriminate.
  - refine (proj1 (proj2 (proj2 (proj2 (proj2 (proj2
      (Slap_Slay_dead_target_only_prints (server ["slap"; "0"; "10"]%string 0) _ _ _ _))))))).
    + vm_compute. discriminate.
    + unfold passes_range_check. vm_compute. split; discriminate.
    + reflexivity.
    + vm_compute. discriminate.
Defined.

(** ** Slap: damage *)

Lemma slap_event_pain idx e :
  0 < Int.signed (health e) -> slap_event idx e = pain_event idx.
Proof.
  intros H. unfold slap_event. rewrite Int_lt_signed.
  change (Int.signed (Int.repr 0)) with 0. apply Z.ltb_lt in H. rewrite H.
  reflexivity.
Qed.

Lemma slap_event_death idx e :
  Int.signed (health e) <= 0 -> slap_event idx e = death_event idx e.
Proof.
  intros H. unfold slap_event. rewrite Int_lt_signed.
  change (Int.signed (Int.repr 0)) with 0. apply Z.ltb_ge in H. rewrite H.
  reflexivity.
Qed.

Lemma arg_damage_omitted w : argc w = 2 -> arg_damage w = Int.repr 0.
Proof. unfold arg_damage. intros ->. reflexivity. Qed.

(** C4, as the claim has it, fails: the health is a 32-bit [int], and a
    damage of [-2147483648] on a health of [1] would need the value
    [2147483649].  The subtraction wraps to [-2147483647], and the entity
    gets a death event. *)
Lemma Slap_health_minus_damage_counterexample :
  2 <= argc (server ["slap"; "0"; "-2147483648"]%string 1) /\
  passes_range_check (server ["slap"; "0"; "-2147483648"]%string 1) /\
  inuse (target (server ["slap"; "0"; "-2147483648"]%string 1)) = true /\
  Int.signed (health (target (server ["slap"; "0"; "-2147483648"]%string 1))) = 1 /\
  Int.signed (arg_damage (server ["slap"; "0"; "-2147483648"]%string 1)) = -2147483648 /\
  health_after Slap (server ["slap"; "0"; "-2147483648"]%string 1) = -2147483647 /\
  health_after Slap (server ["slap"; "0"; "-2147483648"]%string 1)
    <> Int.signed (health (target (server ["slap"; "0"; "-2147483648"]%string 1)))
       - Int.signed (arg_damage (server ["slap"; "0"; "-2147483648"]%string 1)).
Proof.
  repeat split; try (vm_compute; reflexivity); vm_compute; discriminate.
Qed.

(** C4, amended.  [Slap] on a client id that passes the range check, whose
    entity is in use with positive health, leaves the health at the prior
    health minus the damage as a 32-bit [int] holds it: exactly the
    difference whenever that fits an [int], which it does for every damage
    [>= 0].  The damage is [0] when the argument is omitted.  The run makes
    three calls, the last a pain event when the resulting health is
    positive and a death event otherwise.  From health 50, damage 30 gives
    health 20 and a pain event, damage 60 gives health -10 and a death
    event. *)
Theorem Slap_takes_damage_off_health (w : world) :
  2 <= argc w -> passes_range_check w ->
  inuse (target w) = true -> 0 < Int.signed (health (target w)) ->
  let idx := Int.signed (arg_client_id w) in
  let h := Int.signed (health (target w)) in
  let d := Int.signed (arg_damage w) in
  let h' := health_after Slap w in
  h' = Int.wrap (h - d) /\
  (Int.in_range (h - d) -> h' = h - d) /\
  (0 <= d -> h' = h - d) /\
  (argc w = 2 -> d = 0) /\
  (0 < h' ->
   calls Slap w = [Ev_Com_Printf ("Slapping..." ++ nl);
                   slap_broadcast (client_name w idx) (arg_damage w);
                   pain_event idx]) /\
  (h' <= 0 ->
   calls Slap w = [Ev_Com_Printf ("Slapping..." ++ nl);
                   slap_broadcast (client_name w idx) (arg_damage w);
                   death_event idx (target w)]) /\
  (h = 50 -> d = 30 -> h' = 20 /\ In (pain_event idx) (calls Slap w)) /\
  (h = 50 -> d = 60 -> h' = -10 /\ In (death_event idx (target w)) (calls Slap w)).
Proof.
  intros H R U A. destruct (Slap_active w H R U A) as (E & _ & T & _).
  apply calls_of_trace in T. cbv zeta.
  set (e' := slapped _ _ _ _) in *.
  assert (health_after Slap w
          = Int.wrap (Int.signed (health (target w)) - Int.signed (arg_damage w))) as W.
  { rewrite (health_after_eq _ _ _ E). apply Int_signed_sub. }
  assert (health_after Slap w = Int.signed (health e')) as HE.
  { apply health_after_eq. exact E. }
  assert (0 < health_after Slap w -> calls Slap w =
            [Ev_Com_Printf ("Slapping..." ++ nl);
             slap_broadcast (client_name w (Int.signed (arg_client_id w))) (arg_damage w);
             pain_event (Int.signed (arg_client_id w))]) as P.
  { intros L. rewrite T, slap_event_pain; [reflexivity | rewrite <- HE; exact L]. }
  assert (health_after Slap w <= 0 -> calls Slap w =
            [Ev_Com_Printf ("Slapping..." ++ nl);
             slap_broadcast (client_name w (Int.signed (arg_client_id w))) (arg_damage w);
             death_event (Int.signed (arg_client_id w)) (target w)]) as D.
  { intros L. rewrite T, slap_event_death; [reflexivity | rewrite <- HE; exact L]. }
  assert (Int.in_range (Int.signed (health (target w)) - Int.signed (arg_damage w)) ->
          health_after Slap w
          = Int.signed (health (target w)) - Int.signed (arg_damage w)) as X.
  { intros I. rewrite W. apply Int_wrap_in_range. exact I. }
  pose proof (Int_signed_range (health (target w))) as Rh.
  pose proof (Int_signed_range (arg_damage w)) as Rd.
  unfold Int.in_range, Int.min_signed, Int.max_signed in X, Rh, Rd.
  refine (conj W (conj _ (conj _ (conj _ (conj P (conj D (conj _ _))))))).
  - exact X.
  - intros N. apply X. lia.
  - intros Two. rewrite (arg_damage_omitted w Two). reflexivity.
  - intros Eh Ed. assert (health_after Slap w = 20) as V by (rewrite X; lia).
    split; [exact V | ]. rewrite P by lia. right; right; left; reflexivity.
  - intros Eh Ed. assert (health_after Slap w = -10) as V by (rewrite X; lia).
    split; [exact V | ]. rewrite D by lia. right; right; left; reflexivity.
Qed.

Lemma Slap_takes_damage_off_health_witness :
  (health_after Slap (server ["slap"; "0"; "30"]%string 50) = 20 /\
   In (pain_event 0) (calls Slap (server ["slap"; "0"; "30"]%string 50))) /\
  (health_after Slap (server ["slap"; "0"; "60"]%string 50) = -10 /\
   In (death_event 0 (target (server ["slap"; "0"; "60"]%string 50)))
      (calls Slap (server ["slap"; "0"; "60"]%string 50))).
Proof.
  split.
  - refine (proj1 (proj2 (proj2 (proj2 (proj2 (proj2 (proj2
      (Slap_takes_damage_off_health (server ["slap"; "0"; "30"]%string 50) _ _ _ _)))))))
      _ _).
    + vm_compute. discriminate.
    + unfold passes_range_check. vm_compute. split; discriminate.
    + reflexivity.
    + reflexivity.
    + reflexivity.
    + reflexivity.
  - refine (proj2 (proj2 (proj2 (proj2 (proj2 (proj2 (proj2
      (Slap_takes_damage_off_health (server ["slap"; "0"; "60"]%string 50) _ _ _ _)))))))
      _ _).
    + vm_compute. discriminate.
    + unfold passes_range_check. vm_compute. split; discriminate.
    + reflexivity.
    + reflexivity.
    + reflexivity.
    + reflexivity.
Defined.

(** ** Slap: repetition *)

(** One cosmetic slap of a live target: the command line and the client
    limit are not written, and the target is still in use with the health it
    had. *)
Lemma Slap_cosmetic_step (w : world) :
  2 <= argc w -> passes_range_check w ->
  inuse (target w) = true -> 0 < Int.signed (health (target w)) ->
  Int.signed (arg_damage w) = 0 ->
  cmd_argv (exec Slap w) = cmd_argv w /\
  sv_maxclients (exec Slap w) = sv_maxclients w /\
  inuse (target (exec Slap w)) = true /\
  health (target (exec Slap w)) = health (target w).
Proof.
  intros H R U A Z0.
  destruct (Slap_active w H R U A) as (E & _ & _ & _ & S).
  destruct S as [Sargv Smax _ _ _ _ _ _].
  assert (target (exec Slap w)
          = g_entities (exec Slap w) (Int.signed (arg_client_id w))) as Tg.
  { unfold target, arg_client_id. rewrite Sargv. reflexivity. }
  rewrite Tg, E. cbn [inuse health slapped].
  repeat split; try assumption.
  apply Int_sub_zero. exact Z0.
Qed.

Lemma Slap_cosmetic_iter (n : nat) (w : world) :
  2 <= argc w -> passes_range_check w ->
  inuse (target w) = true -> 0 < Int.signed (health (target w)) ->
  Int.signed (arg_damage w) = 0 ->
  cmd_argv (Nat.iter n (exec Slap) w) = cmd_argv w /\
  sv_maxclients (Nat.iter n (exec Slap) w) = sv_maxclients w /\
  inuse (target (Nat.iter n (exec Slap) w)) = true /\
  health (target (Nat.iter n (exec Slap) w)) = health (target w).
Proof.
  intros H R U A Z0. induction n as [|n IH].
  - cbn [Nat.iter nat_rect]. repeat split; assumption.
  - destruct IH as (Iargv & Imax & Iuse & Ihealth).
    change (Nat.iter (S n) (exec Slap) w)
      with (exec Slap (Nat.iter n (exec Slap) w)).
    set (wn := Nat.iter n (exec Slap) w) in *.
    assert (2 <= argc wn) as Hn by (unfold argc; rewrite Iargv; exact H).
    assert (passes_range_check wn) as Rn.
    { unfold passes_range_check, arg_client_id. rewrite Iargv, Imax. exact R. }
    assert (0 < Int.signed (health (target wn))) as An by (rewrite Ihealth; exact A).
    assert (Int.signed (arg_damage wn) = 0) as Zn.
    { unfold arg_damage, argc. rewrite Iargv. exact Z0. }
    destruct (Slap_cosmetic_step wn Hn Rn Iuse An Zn) as (Sargv & Smax & Suse & Sh).
    repeat split.
    + rewrite Sargv. exact Iargv.
    + rewrite Smax. exact Imax.
    + exact Suse.
    + rewrite Sh. exact Ihealth.
Qed.

(** C9.  Take a client id that passes the range check and whose entity is
    in use with positive health, and a slap with the damage omitted or
    zero.  After any number [n] of such slaps in a row the entity is still
    in use and its health is the health it started with. *)
Theorem repeated_cosmetic_Slap_keeps_health (n : nat) (w : world) :
  2 <= argc w -> passes_range_check w ->
  inuse (target w) = true -> 0 < Int.signed (health (target w)) ->
  argc w = 2 \/ Int.signed (arg_damage w) = 0 ->
  health (g_entities (Nat.iter n (exec Slap) w) (Int.signed (arg_client_id w)))
    = health (target w) /\
  inuse (g_entities (Nat.iter n (exec Slap) w) (Int.signed (arg_client_id w)))
    = true.
Proof.
  intros H R U A C.
  assert (Int.signed (arg_damage w) = 0) as Z0.
  { destruct C as [Two | Z0]; [ | exact Z0].
    rewrite (arg_damage_omitted w Two). reflexivity. }
  destruct (Slap_cosmetic_iter n w H R U A Z0) as (Iargv & _ & Iuse & Ihealth).
  assert (target (Nat.iter n (exec Slap) w)
          = g_entities (Nat.iter n (exec Slap) w) (Int.signed (arg_client_id w))) as Tg.
  { unfold target, arg_client_id. rewrite Iargv. reflexivity. }
  rewrite <- Tg. split; assumption.
Qed.

Lemma repeated_cosmetic_Slap_keeps_health_witness :
  health (g_entities (Nat.iter 5 (exec Slap) (server ["slap"; "0"]%string 50)) 0)
    = Int.repr 50 /\
  health (g_entities (Nat.iter 3 (exec Slap) (server ["slap"; "0"; "0"]%string 7)) 0)
    = Int.repr 7.
Proof.
  split.
  - refine (proj1 (repeated_cosmetic_Slap_keeps_health 5
                     (server ["slap"; "0"]%string 50) _ _ _ _ _)).
    + vm_compute. discriminate.
    + unfold passes_range_check. vm_compute. split; discriminate.
    + reflexivity.
    + reflexivity.
    + left. reflexivity.
  - refine (proj1 (repeated_cosmetic_Slap_keeps_health 3
                     (server ["slap"; "0"; "0"]%string 7) _ _ _ _ _)).
    + vm_compute. discriminate.
    + unfold passes_range_check. vm_compute. split; discriminate.
    + reflexivity.
    + reflexivity.
    + right. reflexivity.
Defined.

(** ** Slap and Slay: what the arguments are checked for *)

Lemma scan_digits_stops (rest : string) (acc : Z) :
  no_leading_digit rest = true -> scan_digits rest acc = acc.
Proof.
  destruct rest as [|c r]; [reflexivity | ]. cbn [no_leading_digit scan_digits].
  destruct (digit_of c); [discriminate | reflexivity].
Qed.

(** [atoi] gives [0] for every token that holds no number: text with no
    digit where the number should start, after any white space and sign. *)
Lemma atoi_no_number (s : string) :
  holds_no_number s = true -> atoi s = Int.repr 0.
Proof.
  unfold holds_no_number, atoi, strtol10.
  destruct (skip_space s) as [|c r]; [reflexivity | ].
  destruct c as [b0 b1 b2 b3 b4 b5 b6 b7].
  destruct b0, b1, b2, b3, b4, b5, b6, b7; cbv beta iota; intros H;
    rewrite (scan_digits_stops _ _ H); reflexivity.
Qed.

Lemma Com_Printf_inj (a b : string) : Ev_Com_Printf a = Ev_Com_Printf b -> a = b.
Proof. intros H. injection H as H. exact H. Qed.

Lemma not_active_is_not_range m : msg_not_active <> msg_client_id_range m.
Proof. unfold msg_not_active, msg_client_id_range. cbn [append]. discriminate. Qed.

Lemma slapping_is_not_range m : ("Slapping..." ++ nl)%string <> msg_client_id_range m.
Proof. unfold msg_client_id_range. cbn [append]. discriminate. Qed.

Lemma slaying_is_not_range m :
  ("Slaying player..." ++ nl)%string <> msg_client_id_range m.
Proof. unfold msg_client_id_range. cbn [append]. discriminate. Qed.

Lemma usage_Slap_is_not_range c m : usage_Slap c <> msg_client_id_range m.
Proof. unfold usage_Slap, msg_client_id_range. cbn [append]. discriminate. Qed.

Lemma usage_Slap_is_not_not_active c : usage_Slap c <> msg_not_active.
Proof. unfold usage_Slap, msg_not_active. cbn [append]. discriminate. Qed.

Lemma usage_Slap_is_not_slapping c : usage_Slap c <> ("Slapping..." ++ nl)%string.
Proof. unfold usage_Slap. cbn [append]. discriminate. Qed.

Lemma usage_Slay_is_not_range c m : usage_Slay c <> msg_client_id_range m.
Proof. unfold usage_Slay, msg_client_id_range. cbn [append]. discriminate. Qed.

Lemma usage_Slay_is_not_not_active c : usage_Slay c <> msg_not_active.
Proof. unfold usage_Slay, msg_not_active. cbn [append]. discriminate. Qed.

Lemma usage_Slay_is_not_slaying c :
  usage_Slay c <> ("Slaying player..." ++ nl)%string.
Proof. unfold usage_Slay. cbn [append]. discriminate. Qed.

(** The lines a command can print on the console once a client id is
    given: the range line when the range check fails; past the range check
    the "not active" line, or the line that opens the action. *)
Lemma Slap_console_lines (w : world) (text : string) :
  2 <= argc w -> In (Ev_Com_Printf text) (calls Slap w) ->
  (rejected_by_range_check w /\ text = msg_client_id_range (sv_maxclients w)) \/
  (passes_range_check w /\
   (text = msg_not_active \/ text = ("Slapping..." ++ nl)%string)).
Proof.
  intros H I. destruct (range_check_cases w) as [R | R].
  - left. rewrite (calls_of_log _ _ _ (Slap_out_of_range w H R)) in I.
    destruct I as [E | []]. split; [exact R | ].
    symmetry. exact (Com_Printf_inj _ _ E).
  - right. split; [exact R | ].
    assert (forall X, calls Slap w = [Ev_Com_Printf X] -> text = X) as One.
    { intros X C. rewrite C in I. destruct I as [E | []].
      symmetry. exact (Com_Printf_inj _ _ E). }
    destruct (inuse (target w)) eqn:U.
    + destruct (Z_lt_le_dec 0 (Int.signed (health (target w)))) as [A | A].
      * right. destruct (Slap_active w H R U A) as (_ & _ & T & _).
        apply calls_of_trace in T. rewrite T in I.
        destruct I as [E | [E | [E | []]]].
        -- symmetry. exact (Com_Printf_inj _ _ E).
        -- unfold slap_broadcast in E. discriminate E.
        -- unfold slap_event, pain_event, death_event in E.
           destruct (Int.lt _ _); discriminate E.
      * left. apply One, calls_of_log, Slap_not_active; auto.
    + left. apply One, calls_of_log, Slap_not_active; auto.
Qed.

Lemma Slay_console_lines (w : world) (text : string) :
  2 <= argc w -> In (Ev_Com_Printf text) (calls Slay w) ->
  (rejected_by_range_check w /\ text = msg_client_id_range (sv_maxclients w)) \/
  (passes_range_check w /\
   (text = msg_not_active \/ text = ("Slaying player..." ++ nl)%string)).
Proof.
  intros H I. destruct (range_check_cases w) as [R | R].
  - left. rewrite (calls_of_log _ _ _ (Slay_out_of_range w H R)) in I.
    destruct I as [E | []]. split; [exact R | ].
    symmetry. exact (Com_Printf_inj _ _ E).
  - right. split; [exact R | ].
    assert (forall X, calls Slay w = [Ev_Com_Printf X] -> text = X) as One.
    { intros X C. rewrite C in I. destruct I as [E | []].
      symmetry. exact (Com_Printf_inj _ _ E). }
    destruct (inuse (target w)) eqn:U.
    + destruct (Z_lt_le_dec 0 (Int.signed (health (target w)))) as [A | A].
      * right. destruct (Slay_active w H R U A) as (_ & _ & T & _).
        apply calls_of_trace in T. rewrite T in I.
        destruct I as [E | [E | [E | [E | []]]]]; try discriminate E.
        symmetry. exact (Com_Printf_inj _ _ E).
      * left. apply One, calls_of_log, Slay_not_active; auto.
    + left. apply One, calls_of_log, Slay_not_active; auto.
Qed.

(** C7, as the claim has it, fails: with [sv_maxclients = 2] the command
    [slay 2] is not rejected; entity 2, in use with health 100, is slain. *)
Lemma client_id_maxclients_counterexample :
  Int.signed (arg_client_id (server ["slay"; "2"]%string 50))
    = Int.signed (sv_maxclients (server ["slay"; "2"]%string 50)) /\
  inuse (target (server ["slay"; "2"]%string 50)) = true /\
  Int.signed (health (target (server ["slay"; "2"]%string 50))) = 100 /\
  health_after Slay (server ["slay"; "2"]%string 50) = -40 /\
  g_entities (exec Slay (server ["slay"; "2"]%string 50)) 2
    <> g_entities (server ["slay"; "2"]%string 50) 2 /\
  calls Slay (server ["slay"; "2"]%string 50)
    <> [Ev_Com_Printf
          (msg_client_id_range (sv_maxclients (server ["slay"; "2"]%string 50)))].
Proof.
  repeat split; try (vm_compute; reflexivity); vm_compute; discriminate.
Qed.

(** C7, amended.  [Slap] and [Slay] reject a client id exactly when it is
    below [0] or above [sv_maxclients]: then they only print the range
    line, and for a client id in the closed range [0 .. sv_maxclients]
    neither of them prints that line.  A client id equal to
    [sv_maxclients] is therefore not rejected.  Both commands go on to the
    test of the entity there, and only print the "not active" line when it
    is not in use or has no health left; when it is in use with positive
    health, [Slay] sets its health to [-40]. *)
Theorem client_id_accepted_up_to_maxclients (w : world) :
  2 <= argc w ->
  (rejected_by_range_check w ->
   exec Slap w = log (Ev_Com_Printf (msg_client_id_range (sv_maxclients w))) w /\
   exec Slay w = log (Ev_Com_Printf (msg_client_id_range (sv_maxclients w))) w) /\
  (passes_range_check w ->
   ~ In (Ev_Com_Printf (msg_client_id_range (sv_maxclients w))) (calls Slap w) /\
   ~ In (Ev_Com_Printf (msg_client_id_range (sv_maxclients w))) (calls Slay w)) /\
  (Int.signed (arg_client_id w) = Int.signed (sv_maxclients w) ->
   0 <= Int.signed (sv_maxclients w) ->
   (inuse (target w) = false \/ Int.signed (health (target w)) <= 0 ->
    exec Slap w = log (Ev_Com_Printf msg_not_active) w /\
    exec Slay w = log (Ev_Com_Printf msg_not_active) w) /\
   (inuse (target w) = true -> 0 < Int.signed (health (target w)) ->
    health_after Slay w = -40 /\
    g_entities (exec Slay w) (Int.signed (sv_maxclients w))
      = with_health (Int.repr (-40)) (target w))).
Proof.
  intros H. refine (conj _ (conj _ _)).
  - intros R. split; [apply Slap_out_of_range | apply Slay_out_of_range]; assumption.
  - intros R.
    assert (~ rejected_by_range_check w) as NR.
    { unfold rejected_by_range_check, passes_range_check in *. lia. }
    split; intros I.
    + destruct (Slap_console_lines w _ H I) as [(R' & _) | (_ & [E | E])].
      * contradiction.
      * exact (not_active_is_not_range _ (eq_sym E)).
      * exact (slapping_is_not_range _ (eq_sym E)).
    + destruct (Slay_console_lines w _ H I) as [(R' & _) | (_ & [E | E])].
      * contradiction.
      * exact (not_active_is_not_range _ (eq_sym E)).
      * exact (slaying_is_not_range _ (eq_sym E)).
  - intros M N.
    assert (passes_range_check w) as R by (unfold passes_range_check; lia).
    split.
    + intros D. split; [apply Slap_not_active | apply Slay_not_active]; assumption.
    + intros U A. destruct (Slay_active w H R U A) as (Ey & _).
      split.
      * rewrite (health_after_eq _ _ _ Ey). reflexivity.
      * rewrite <- M. exact Ey.
Qed.

Lemma client_id_accepted_up_to_maxclients_witness :
  health_after Slay (server ["slay"; "2"]%string 50) = -40 /\
  exec Slay (server ["slay"; "3"]%string 50)
    = log (Ev_Com_Printf
             (msg_client_id_range (sv_maxclients (server ["slay"; "3"]%string 50))))
          (server ["slay"; "3"]%string 50).
Proof.
  split.
  - refine (proj1 (proj2 (proj2 (proj2
      (client_id_accepted_up_to_maxclients (server ["slay"; "2"]%string 50) _))
      _ _) _ _)).
    + vm_compute. discriminate.
    + reflexivity.
    + vm_compute. discriminate.
    + reflexivity.
    + reflexivity.
  - refine (proj2 (proj1
      (client_id_accepted_up_to_maxclients (server ["slay"; "3"]%string 50) _)
      _)).
    + vm_compute. discriminate.
    + right. reflexivity.
Defined.

(** C8, as the claim has it, fails for malformed arguments: [slap abc]
    prints no usage line; [atoi] reads [abc] as [0], and client 0 is
    slapped (a broadcast goes out and its velocity changes); [slay abc]
    slays client 0. *)
Lemma non_numeric_client_id_counterexample :
  holds_no_number "abc" = true /\
  calls Slap (server ["slap"; "abc"]%string 50)
    = [Ev_Com_Printf ("Slapping..." ++ nl);
       Ev_SV_SendServerCommand None (msg_slapped "Anarki");
       pain_event 0] /\
  g_entities (exec Slap (server ["slap"; "abc"]%string 50)) 0
    <> g_entities (server ["slap"; "abc"]%string 50) 0 /\
  Int.signed (health (g_entities (server ["slay"; "abc"]%string 50) 0)) = 50 /\
  Int.signed (health (g_entities (exec Slay (server ["slay"; "abc"]%string 50)) 0))
    = -40.
Proof.
  repeat split; try (vm_compute; reflexivity); vm_compute; discriminate.
Qed.

(** C8, amended.  With the client id missing (fewer than two tokens)
    [Slap] and [Slay] only print their usage line on the local console;
    the world is otherwise unchanged.  With two tokens or more neither of
    them prints a usage line at all, whatever the tokens are.  A token that
    holds no number (after the white space and the sign [atoi] accepts
    there is no digit) is read as [0]: such a client id is client 0, such a
    damage is 0, and when entity 0 is in use with positive health [Slay]
    with such a client id sets its health to [-40] and [Slap] opens its
    action on it. *)
Theorem missing_client_id_only_prints_usage (w : world) :
  (argc w < 2 ->
   exec Slap w = log (Ev_Com_Printf (usage_Slap (nth 0 (cmd_argv w) EmptyString))) w /\
   exec Slay w = log (Ev_Com_Printf (usage_Slay (nth 0 (cmd_argv w) EmptyString))) w /\
   g_entities (exec Slap w) = g_entities w /\
   g_entities (exec Slay w) = g_entities w) /\
  (2 <= argc w ->
   (forall cmd, ~ In (Ev_Com_Printf (usage_Slap cmd)) (calls Slap w)) /\
   (forall cmd, ~ In (Ev_Com_Printf (usage_Slay cmd)) (calls Slay w)) /\
   (holds_no_number (nth 1 (cmd_argv w) EmptyString) = true ->
    arg_client_id w = Int.repr 0) /\
   (holds_no_number (nth 2 (cmd_argv w) EmptyString) = true ->
    arg_damage w = Int.repr 0) /\
   (holds_no_number (nth 1 (cmd_argv w) EmptyString) = true ->
    0 <= Int.signed (sv_maxclients w) ->
    inuse (g_entities w 0) = true -> 0 < Int.signed (health (g_entities w 0)) ->
    Int.signed (health (g_entities (exec Slay w) 0)) = -40 /\
    In (Ev_Com_Printf ("Slapping..." ++ nl)) (calls Slap w))).
Proof.
  split.
  - intros H. pose proof (Slap_usage w H) as P. pose proof (Slay_usage w H) as Y.
    refine (conj P (conj Y (conj _ _))).
    + rewrite P. reflexivity.
    + rewrite Y. reflexivity.
  - intros H.
    assert (holds_no_number (nth 1 (cmd_argv w) EmptyString) = true ->
            arg_client_id w = Int.repr 0) as Id.
    { intros N. unfold arg_client_id. apply atoi_no_number. exact N. }
    refine (conj _ (conj _ (conj Id (conj _ _)))).
    + intros cmd I.
      destruct (Slap_console_lines w _ H I) as [(_ & E) | (_ & [E | E])].
      * exact (usage_Slap_is_not_range _ _ E).
      * exact (usage_Slap_is_not_not_active _ E).
      * exact (usage_Slap_is_not_slapping _ E).
    + intros cmd I.
      destruct (Slay_console_lines w _ H I) as [(_ & E) | (_ & [E | E])].
      * exact (usage_Slay_is_not_range _ _ E).
      * exact (usage_Slay_is_not_not_active _ E).
      * exact (usage_Slay_is_not_slaying _ E).
    + intros N. unfold arg_damage.
      destruct (2 <? argc w); [apply atoi_no_number; exact N | reflexivity].
    + intros N M U A. pose proof (Id N) as I.
      assert (Int.signed (arg_client_id w) = 0) as I0 by (rewrite I; reflexivity).
      assert (passes_range_check w) as R by (unfold passes_range_check; lia).
      assert (target w = g_entities w 0) as Tg by (unfold target; rewrite I0; reflexivity).
      rewrite <- Tg in U, A.
      destruct (Slay_active w H R U A) as (Ey & _).
      destruct (Slap_active w H R U A) as (_ & _ & T & _).
      apply calls_of_trace in T. rewrite I0 in Ey. split.
      * rewrite Ey. reflexivity.
      * rewrite T. left. reflexivity.
Qed.

Lemma missing_client_id_only_prints_usage_witness :
  exec Slap (server ["slap"]%string 50)
    = log (Ev_Com_Printf (usage_Slap "slap")) (server ["slap"]%string 50) /\
  arg_client_id (server ["slap"; " -x"]%string 50) = Int.repr 0 /\
  Int.signed (health (g_entities (exec Slay (server ["slay"; "+"]%string 50)) 0)) = -40.
Proof.
  split; [ | split].
  - refine (proj1 (proj1
      (missing_client_id_only_prints_usage (server ["slap"]%string 50)) _)).
    reflexivity.
  - refine (proj1 (proj2 (proj2 (proj2
      (missing_client_id_only_prints_usage (server ["slap"; " -x"]%string 50)) _)))
      _).
    + vm_compute. discriminate.
    + reflexivity.
  - refine (proj1 (proj2 (proj2 (proj2 (proj2 (proj2
      (missing_client_id_only_prints_usage (server ["slay"; "+"]%string 50)) _))))
      _ _ _ _)).
    + vm_compute. discriminate.
    + reflexivity.
    + vm_compute. discriminate.
    + reflexivity.
    + reflexivity.
Defined.

(** ** Further properties of the commands *)

(** X1.  The knock-back of a slap.  On a live target [Slap] adds to the
    velocity that is there: a random value times [200.0f] to each of the
    first two components, drawing two random values in that order, and
    [300.0f] to the third.  It writes no other entity, and leaves [inuse]
    and [s.number] of the target as they were. *)
Theorem Slap_knockback_adds_to_velocity (w : world) :
  2 <= argc w -> passes_range_check w ->
  inuse (target w) = true -> 0 < Int.signed (health (target w)) ->
  let idx := Int.signed (arg_client_id w) in
  let e' := g_entities (exec Slap w) idx in
  velocity0 e' = fadd (velocity0 (target w))
                      (fmul (random_source w (random_drawn w)) f200) /\
  velocity1 e' = fadd (velocity1 (target w))
                      (fmul (random_source w (S (random_drawn w))) f200) /\
  velocity2 e' = fadd (velocity2 (target w)) f300 /\
  inuse e' = inuse (target w) /\
  s_number e' = s_number (target w) /\
  random_drawn (exec Slap w) = S (S (random_drawn w)) /\
  (forall j, j <> idx -> g_entities (exec Slap w) j = g_entities w j).
Proof.
  intros H R U A. destruct (Slap_active w H R U A) as (E & O & _ & D & _).
  cbv zeta. rewrite E. cbn [slapped velocity0 velocity1 velocity2 inuse s_number].
  refine (conj eq_refl (conj eq_refl (conj eq_refl (conj eq_refl (conj eq_refl
            (conj D O)))))).
Qed.

Lemma Slap_knockback_adds_to_velocity_witness :
  velocity2 (g_entities (exec Slap (server ["slap"; "0"]%string 50)) 0) = f300.
Proof.
  refine (proj1 (proj2 (proj2
    (Slap_knockback_adds_to_velocity (server ["slap"; "0"]%string 50) _ _ _ _)))).
  - vm_compute. discriminate.
  - unfold passes_range_check. vm_compute. split; discriminate.
  - reflexivity.
  - reflexivity.
Defined.

(** X2.  The broadcast of a slap.  On a live target [Slap] sends one
    server command, to all clients: the line that names the target and the
    damage when the damage is not zero, and the line that names the target
    alone when it is. *)
Theorem Slap_broadcast_names_target (w : world) :
  2 <= argc w -> passes_range_check w ->
  inuse (target w) = true -> 0 < Int.signed (health (target w)) ->
  let name := client_name w (Int.signed (arg_client_id w)) in
  (Int.signed (arg_damage w) <> 0 ->
   filter is_SV_SendServerCommand (calls Slap w)
     = [Ev_SV_SendServerCommand None (msg_slapped_for name (arg_damage w))]) /\
  (Int.signed (arg_damage w) = 0 ->
   filter is_SV_SendServerCommand (calls Slap w)
     = [Ev_SV_SendServerCommand None (msg_slapped name)]).
Proof.
  intros H R U A. destruct (Slap_active w H R U A) as (_ & _ & T & _).
  apply calls_of_trace in T. cbv zeta. rewrite T. clear T.
  assert (forall idx e, is_SV_SendServerCommand (slap_event idx e) = false) as Ev.
  { intros idx e. unfold slap_event. destruct (Int.lt _ _); reflexivity. }
  unfold slap_broadcast. cbn [filter is_SV_SendServerCommand]. rewrite Ev.
  rewrite Int_nonzero_signed. split; intros D.
  - apply Z.eqb_neq in D. rewrite D. reflexivity.
  - apply Z.eqb_eq in D. rewrite D. reflexivity.
Qed.

Lemma Slap_broadcast_names_target_witness :
  filter is_SV_SendServerCommand (calls Slap (server ["slap"; "0"; "30"]%string 50))
    = [Ev_SV_SendServerCommand None (msg_slapped_for "Anarki" (Int.repr 30))].
Proof.
  refine (proj1
    (Slap_broadcast_names_target (server ["slap"; "0"; "30"]%string 50) _ _ _ _) _).
  - vm_compute. discriminate.
  - unfold passes_range_check. vm_compute. split; discriminate.
  - reflexivity.
  - reflexivity.
  - vm_compute. discriminate.
Defined.



(** ** Slap and Slay as a whole *)

Lemma same_host_log w e : same_host w (log e w).
Proof. constructor; reflexivity. Qed.

Lemma same_host_trans (a b c : world) :
  same_host a b -> same_host b c -> same_host a c.
Proof.
  intros [A1 A2 A3 A4 A5 A6 A7 A8] [B1 B2 B3 B4 B5 B6 B7 B8].
  constructor; congruence.
Qed.

(** Either all four tests pass, or the first one that fails is the token
    count, the range check, or the test of the entity. *)
Lemma live_target_cases (w : world) :
  live_target w \/
  (argc w < 2 \/
   (2 <= argc w /\ rejected_by_range_check w) \/
   (2 <= argc w /\ passes_range_check w /\
    (inuse (target w) = false \/ Int.signed (health (target w)) <= 0))).
Proof.
  unfold live_target.
  destruct (Z_lt_le_dec (argc w) 2) as [L | L]; [right; left; exact L | ].
  destruct (range_check_cases w) as [R | R]; [right; right; left; auto | ].
  destruct (inuse (target w)) eqn:U; [ | right; right; right; auto].
  destruct (Z_lt_le_dec 0 (Int.signed (health (target w)))) as [A | A].
  - left. auto.
  - right. right. right. auto.
Qed.

Lemma live_target_dec (w : world) : live_target w \/ ~ live_target w.
Proof.
  destruct (live_target_cases w) as [L | N]; [left; exact L | right].
  unfold live_target, rejected_by_range_check, passes_range_check in *.
  intros (H & R & U & A).
  destruct N as [N | [(_ & N) | (_ & _ & [N | N])]]; try lia.
  rewrite U in N. discriminate N.
Qed.

Lemma Slap_idle (w : world) :
  ~ live_target w -> exists text, exec Slap w = log (Ev_Com_Printf text) w.
Proof.
  intros N. destruct (live_target_cases w) as [L | [L | [(H & R) | (H & R & A)]]].
  - contradiction.
  - eexists. apply Slap_usage. exact L.
  - eexists. apply Slap_out_of_range; assumption.
  - eexists. apply Slap_not_active; assumption.
Qed.

Lemma Slay_idle (w : world) :
  ~ live_target w -> exists text, exec Slay w = log (Ev_Com_Printf text) w.
Proof.
  intros N. destruct (live_target_cases w) as [L | [L | [(H & R) | (H & R & A)]]].
  - contradiction.
  - eexists. apply Slay_usage. exact L.
  - eexists. apply Slay_out_of_range; assumption.
  - eexists. apply Slay_not_active; assumption.
Qed.

(** X4.  What [Slap] and [Slay] never write, whatever the arguments and
    whatever path they take: the command line, [sv_maxclients], the client
    names, the interpreter session, any entity other than the one the
    client id addresses, and [inuse] and [s.number] of any entity.  [Slay]
    also never touches a velocity and never draws a random value. *)
Theorem Slap_Slay_write_only_the_target (w : world) :
  let idx := Int.signed (arg_client_id w) in
  same_host w (exec Slap w) /\
  same_host w (exec Slay w) /\
  (forall j, j <> idx ->
     g_entities (exec Slap w) j = g_entities w j /\
     g_entities (exec Slay w) j = g_entities w j) /\
  (forall j,
     inuse (g_entities (exec Slap w) j) = inuse (g_entities w j) /\
     s_number (g_entities (exec Slap w) j) = s_number (g_entities w j) /\
     inuse (g_entities (exec Slay w) j) = inuse (g_entities w j) /\
     s_number (g_entities (exec Slay w) j) = s_number (g_entities w j)) /\
  (forall j,
     velocity0 (g_entities (exec Slay w) j) = velocity0 (g_entities w j) /\
     velocity1 (g_entities (exec Slay w) j) = velocity1 (g_entities w j) /\
     velocity2 (g_entities (exec Slay w) j) = velocity2 (g_entities w j)) /\
  random_drawn (exec Slay w) = random_drawn w.
Proof.
  cbv zeta. destruct (live_target_dec w) as [(H & R & U & A) | N].
  - destruct (Slap_active w H R U A) as (Ep & Op & _ & _ & Sp).
    destruct (Slay_active w H R U A) as (Ey & Oy & _ & Dy & Sy).
    refine (conj Sp (conj Sy (conj _ (conj _ (conj _ Dy))))).
    + intros j Hj. split; [apply Op | apply Oy]; exact Hj.
    + intros j. destruct (Z.eq_dec j (Int.signed (arg_client_id w))) as [-> | Hj].
      * rewrite Ep, Ey. repeat split.
      * rewrite (Op j Hj), (Oy j Hj). repeat split.
    + intros j. destruct (Z.eq_dec j (Int.signed (arg_client_id w))) as [-> | Hj].
      * rewrite Ey. repeat split.
      * rewrite (Oy j Hj). repeat split.
  - destruct (Slap_idle w N) as (tp & Ep). destruct (Slay_idle w N) as (ty & Ey).
    rewrite Ep, Ey.
    refine (conj (same_host_log _ _) (conj (same_host_log _ _) _)).
    repeat split.
Qed.

Lemma slap_event_is_event idx e : is_G_AddEvent (slap_event idx e) = true.
Proof. unfold slap_event. destruct (Int.lt _ _); reflexivity. Qed.

Lemma slap_event_kind idx e :
  is_Com_Printf (slap_event idx e) = false /\
  is_SV_SendServerCommand (slap_event idx e) = false.
Proof. unfold slap_event. destruct (Int.lt _ _); split; reflexivity. Qed.

(** X5.  [Slap] and [Slay] always print exactly one line on the local
    console.  They send a broadcast and add an event, one of each, exactly
    when all four tests pass (a client id is given, it passes the range
    check, the entity is in use, its health is positive); when any test
    fails there is no broadcast and no event, the entity table is the one
    they started from and no random value is drawn. *)
Theorem Slap_Slay_act_exactly_on_live_target (w : world) :
  count_calls is_Com_Printf (calls Slap w) = 1%nat /\
  count_calls is_Com_Printf (calls Slay w) = 1%nat /\
  (live_target w ->
   count_calls is_SV_SendServerCommand (calls Slap w) = 1%nat /\
   count_calls is_G_AddEvent (calls Slap w) = 1%nat /\
   count_calls is_SV_SendServerCommand (calls Slay w) = 1%nat /\
   count_calls is_G_AddEvent (calls Slay w) = 1%nat) /\
  (~ live_target w ->
   count_calls is_SV_SendServerCommand (calls Slap w) = 0%nat /\
   count_calls is_G_AddEvent (calls Slap w) = 0%nat /\
   count_calls is_SV_SendServerCommand (calls Slay w) = 0%nat /\
   count_calls is_G_AddEvent (calls Slay w) = 0%nat /\
   g_entities (exec Slap w) = g_entities w /\
   g_entities (exec Slay w) = g_entities w /\
   random_drawn (exec Slap w) = random_drawn w).
Proof.
  destruct (live_target_dec w) as [L | N].
  - pose proof L as (H & R & U & A).
    destruct (Slap_active w H R U A) as (_ & _ & Tp & _).
    destruct (Slay_active w H R U A) as (_ & _ & Ty & _).
    apply calls_of_trace in Tp. apply calls_of_trace in Ty.
    rewrite Tp, Ty. unfold count_calls, slap_broadcast.
    cbn [filter is_Com_Printf is_SV_SendServerCommand is_G_AddEvent].
    destruct (slap_event_kind (Int.signed (arg_client_id w))
                (slapped (random_source w (random_drawn w))
                   (random_source w (S (random_drawn w))) (arg_damage w) (target w)))
      as (K1 & K2).
    rewrite K1, K2, slap_event_is_event. cbn [List.length].
    refine (conj eq_refl (conj eq_refl (conj _ _))).
    + intros _. repeat split.
    + intros N. contradiction.
  - destruct (Slap_idle w N) as (tp & Ep). destruct (Slay_idle w N) as (ty & Ey).
    rewrite (calls_of_log _ _ _ Ep), (calls_of_log _ _ _ Ey), Ep, Ey.
    refine (conj eq_refl (conj eq_refl (conj _ _))).
    + intros L. contradiction.
    + intros _. repeat split.
Qed.

Lemma Slap_Slay_act_exactly_on_live_target_witness :
  count_calls is_G_AddEvent (calls Slap (server ["slap"; "0"; "30"]%string 50)) = 1%nat /\
  g_entities (exec Slay (server ["slay"; "1"]%string 50))
    = g_entities (server ["slay"; "1"]%string 50).
Proof.
  split.
  - refine (proj1 (proj2 (proj1 (proj2 (proj2
      (Slap_Slay_act_exactly_on_live_target (server ["slap"; "0"; "30"]%string 50))))
      _))).
    unfold live_target, passes_range_check. vm_compute.
    repeat split; discriminate.
  - refine (proj1 (proj2 (proj2 (proj2 (proj2 (proj2 (proj2 (proj2 (proj2
      (Slap_Slay_act_exactly_on_live_target (server ["slay"; "1"]%string 50))))
      _))))))).
    unfold live_target. intros (_ & _ & U & _). vm_compute in U. discriminate U.
Defined.

(** ** Slap and Slay one after the other *)

(** The readings of the command line depend on the command line alone. *)
Lemma readings_same_argv (w w' : world) :
  cmd_argv w' = cmd_argv w ->
  argc w' = argc w /\ arg_client_id w' = arg_client_id w /\
  arg_damage w' = arg_damage w.
Proof.
  intros E. unfold arg_damage, argc, arg_client_id. rewrite E. repeat split.
Qed.

Lemma target_after (w w' : world) :
  same_host w w' ->
  target w' = g_entities w' (Int.signed (arg_client_id w)).
Proof.
  intros [Sargv _ _ _ _ _ _ _]. unfold target, arg_client_id. rewrite Sargv.
  reflexivity.
Qed.

(** After a command that left the host alone, the command line still
    passes the checks it passed. *)
Lemma checks_after (w w' : world) :
  same_host w w' -> 2 <= argc w -> passes_range_check w ->
  2 <= argc w' /\ passes_range_check w'.
Proof.
  intros [Sargv Smax _ _ _ _ _ _] H R.
  destruct (readings_same_argv w w' Sargv) as (Ec & Ei & _).
  unfold passes_range_check. rewrite Ec, Ei, Smax. auto.
Qed.

Lemma dead_target_idle (w : world) :
  2 <= argc w -> passes_range_check w ->
  Int.signed (health (target w)) <= 0 ->
  exec Slap w = log (Ev_Com_Printf msg_not_active) w /\
  exec Slay w = log (Ev_Com_Printf msg_not_active) w.
Proof.
  intros H R D. split; [apply Slap_not_active | apply Slay_not_active]; auto.
Qed.

(** One slap of a live target, read through [target]. *)
Lemma Slap_live_step (w : world) :
  live_target w ->
  same_host w (exec Slap w) /\
  inuse (target (exec Slap w)) = true /\
  Int.signed (health (target (exec Slap w)))
    = Int.wrap (Int.signed (health (target w)) - Int.signed (arg_damage w)).
Proof.
  intros (H & R & U & A).
  destruct (Slap_active w H R U A) as (E & _ & _ & _ & SH).
  rewrite (target_after _ _ SH), E. cbn [inuse health slapped].
  refine (conj SH (conj U _)). apply Int_signed_sub.
Qed.

(** X6.  [Slay] is final.  After a slay that acted, the target is still
    in use and its health is [-40], so the same command line given to
    [Slay] or [Slap] again only prints the "not active" line; however many
    times [Slay] is repeated, the entity table stays the one the first slay
    left. *)
Theorem Slay_leaves_target_dead (w : world) :
  live_target w ->
  inuse (target (exec Slay w)) = true /\
  Int.signed (health (target (exec Slay w))) = -40 /\
  exec Slay (exec Slay w) = log (Ev_Com_Printf msg_not_active) (exec Slay w) /\
  exec Slap (exec Slay w) = log (Ev_Com_Printf msg_not_active) (exec Slay w) /\
  (forall n, g_entities (Nat.iter n (exec Slay) (exec Slay w))
             = g_entities (exec Slay w)).
Proof.
  intros (H & R & U & A).
  destruct (Slay_active w H R U A) as (E & _ & _ & _ & SH).
  pose proof (target_after _ _ SH) as Tg.
  destruct (checks_after _ _ SH H R) as (H1 & R1).
  assert (Int.signed (health (target (exec Slay w))) = -40) as Hd.
  { rewrite Tg, E. reflexivity. }
  assert (inuse (target (exec Slay w)) = true) as U1.
  { rewrite Tg, E. exact U. }
  assert (Int.signed (health (target (exec Slay w))) <= 0) as D by lia.
  destruct (dead_target_idle _ H1 R1 D) as (Ip & Iy).
  refine (conj U1 (conj Hd (conj Iy (conj Ip _)))).
  intros n. set (w1 := exec Slay w) in *.
  assert (same_host w1 (Nat.iter n (exec Slay) w1) /\
          g_entities (Nat.iter n (exec Slay) w1) = g_entities w1) as K.
  { induction n as [|n (Sn & Gn)].
    - split; [constructor; reflexivity | reflexivity].
    - change (Nat.iter (S n) (exec Slay) w1)
        with (exec Slay (Nat.iter n (exec Slay) w1)).
      set (wn := Nat.iter n (exec Slay) w1) in *.
      destruct (checks_after _ _ Sn H1 R1) as (Hn & Rn).
      assert (Int.signed (health (target wn)) <= 0) as Dn.
      { rewrite (target_after _ _ Sn), Gn. unfold target in D. exact D. }
      destruct (dead_target_idle _ Hn Rn Dn) as (_ & In).
      rewrite In. split; [ | exact Gn].
      destruct Sn. constructor; assumption. }
  exact (proj2 K).
Qed.

Lemma Slay_leaves_target_dead_witness :
  exec Slap (exec Slay (server ["slay"; "0"]%string 50))
    = log (Ev_Com_Printf msg_not_active) (exec Slay (server ["slay"; "0"]%string 50)).
Proof.
  refine (proj1 (proj2 (proj2 (proj2
    (Slay_leaves_target_dead (server ["slay"; "0"]%string 50) _))))).
  unfold live_target, passes_range_check. vm_compute. repeat split; discriminate.
Defined.

(** X7.  Whether a slap leaves its target standing.  When the health minus
    the damage fits an [int], the target passes the four tests again after
    the slap exactly when the damage is below the health.  When the damage
    reaches the health, the same command line given to [Slap] or [Slay]
    again only prints the "not active" line.  A negative damage raises the
    health. *)
Theorem Slap_target_survives_iff_damage_below_health (w : world) :
  live_target w ->
  Int.in_range (Int.signed (health (target w)) - Int.signed (arg_damage w)) ->
  let h := Int.signed (health (target w)) in
  let d := Int.signed (arg_damage w) in
  (d < h <-> live_target (exec Slap w)) /\
  (h <= d ->
   exec Slap (exec Slap w) = log (Ev_Com_Printf msg_not_active) (exec Slap w) /\
   exec Slay (exec Slap w) = log (Ev_Com_Printf msg_not_active) (exec Slap w)) /\
  (d < 0 -> h < Int.signed (health (target (exec Slap w)))).
Proof.
  intros L I. pose proof L as (H & R & U & A).
  destruct (Slap_live_step w L) as (SH & U1 & E).
  rewrite (Int_wrap_in_range _ I) in E.
  destruct (checks_after _ _ SH H R) as (H1 & R1).
  cbv zeta. refine (conj _ (conj _ _)).
  - split.
    + intros D. unfold live_target. rewrite E.
      refine (conj H1 (conj R1 (conj U1 _))). lia.
    + intros (_ & _ & _ & A1). lia.
  - intros D. apply dead_target_idle; try assumption. lia.
  - intros D. lia.
Qed.

Lemma Slap_target_survives_iff_damage_below_health_witness :
  exec Slay (exec Slap (server ["slap"; "0"; "50"]%string 50))
    = log (Ev_Com_Printf msg_not_active)
        (exec Slap (server ["slap"; "0"; "50"]%string 50)) /\
  50 < Int.signed (health (target (exec Slap (server ["slap"; "0"; "-25"]%string 50)))).
Proof.
  split.
  - refine (proj2 (proj1 (proj2
      (Slap_target_survives_iff_damage_below_health
         (server ["slap"; "0"; "50"]%string 50) _ _)) _)).
    + unfold live_target, passes_range_check. vm_compute. repeat split; discriminate.
    + unfold Int.in_range. vm_compute. split; discriminate.
    + vm_compute. discriminate.
  - refine (proj2 (proj2
      (Slap_target_survives_iff_damage_below_health
         (server ["slap"; "0"; "-25"]%string 50) _ _)) _).
    + unfold live_target, passes_range_check. vm_compute. repeat split; discriminate.
    + unfold Int.in_range. vm_compute. split; discriminate.
    + reflexivity.
Defined.

Lemma slaps_to_kill_bounds (h d : Z) :
  0 < d ->
  d * (slaps_to_kill h d - 1) < h <= d * slaps_to_kill h d.
Proof.
  intros D. unfold slaps_to_kill.
  pose proof (Z.div_mod (h + d - 1) d ltac:(lia)) as E.
  pose proof (Z.mod_pos_bound (h + d - 1) d D) as B.
  nia.
Qed.

(** X8.  Slaps in a row.  Give the same command line, with a damage
    [d > 0], to [Slap] [n] times, starting from a live target of health
    [h].  Each slap takes [d] off until the health is zero or below, and
    the slaps after that change nothing: the health ends at
    [h - d * min n k], where [k] is [h / d] rounded up, and the entity stays
    in use. *)
Theorem repeated_Slap_health (n : nat) (w : world) :
  live_target w -> 0 < Int.signed (arg_damage w) ->
  let h := Int.signed (health (target w)) in
  let d := Int.signed (arg_damage w) in
  let wn := Nat.iter n (exec Slap) w in
  Int.signed (health (g_entities wn (Int.signed (arg_client_id w))))
    = h - d * Z.min (Z.of_nat n) (slaps_to_kill h d) /\
  inuse (g_entities wn (Int.signed (arg_client_id w))) = true.
Proof.
  intros L D. pose proof L as (H & R & U & A). cbv zeta.
  pose proof (slaps_to_kill_bounds (Int.signed (health (target w)))
                (Int.signed (arg_damage w)) D) as K.
  set (h := Int.signed (health (target w))) in *.
  set (d := Int.signed (arg_damage w)) in *.
  set (k := slaps_to_kill h d) in *.
  assert (same_host w (Nat.iter n (exec Slap) w) /\
          inuse (target (Nat.iter n (exec Slap) w)) = true /\
          Int.signed (health (target (Nat.iter n (exec Slap) w)))
            = h - d * Z.min (Z.of_nat n) k) as Inv.
  { induction n as [|n (Sn & Un & Hn)].
    - cbn [Nat.iter nat_rect]. refine (conj _ (conj U _)).
      + constructor; reflexivity.
      + change (Z.of_nat 0) with 0. fold h. lia.
    - change (Nat.iter (S n) (exec Slap) w)
        with (exec Slap (Nat.iter n (exec Slap) w)).
      set (wn := Nat.iter n (exec Slap) w) in *.
      destruct (checks_after _ _ Sn H R) as (Hc & Rc).
      assert (arg_damage wn = arg_damage w) as Ed.
      { destruct Sn as [Sargv _ _ _ _ _ _ _].
        apply (readings_same_argv w wn Sargv). }
      destruct (Z_lt_le_dec 0 (Int.signed (health (target wn)))) as [An | An].
      + assert (live_target wn) as Ln by (unfold live_target; auto).
        destruct (Slap_live_step wn Ln) as (S1 & U1 & E1).
        rewrite Ed in E1. fold d in E1.
        pose proof (Int_signed_range (health (target wn))) as Rh.
        pose proof (Int_signed_range (arg_damage w)) as Rd. fold d in Rd.
        rewrite Int_wrap_in_range in E1
          by (unfold Int.in_range, Int.min_signed, Int.max_signed in *; lia).
        refine (conj (same_host_trans _ _ _ Sn S1) (conj U1 _)).
        rewrite E1, Hn. rewrite Hn in An.
        assert (Z.of_nat n < k) as Lt.
        { destruct (Z_lt_le_dec (Z.of_nat n) k) as [C | C]; [exact C | ].
          rewrite Z.min_r in An by exact C. lia. }
        rewrite Z.min_l by lia. rewrite Z.min_l by lia. lia.
      + destruct (dead_target_idle wn Hc Rc An) as (Ip & _).
        rewrite Ip.
        assert (target (log (Ev_Com_Printf msg_not_active) wn) = target wn) as Tl
          by reflexivity.
        rewrite Tl. refine (conj _ (conj Un _)).
        * destruct Sn. constructor; assumption.
        * rewrite Hn. rewrite Hn in An.
          assert (k <= Z.of_nat n) as Ge.
          { destruct (Z_lt_le_dec (Z.of_nat n) k) as [C | C]; [ | exact C].
            rewrite Z.min_l in An by lia. nia. }
          rewrite Z.min_r by exact Ge. rewrite Z.min_r by lia. reflexivity. }
  destruct Inv as (Sn & Un & Hn).
  rewrite (target_after _ _ Sn) in Un, Hn. split; assumption.
Qed.

Lemma repeated_Slap_health_witness :
  Int.signed (health (g_entities
     (Nat.iter 2 (exec Slap) (server ["slap"; "0"; "20"]%string 50)) 0)) = 10 /\
  Int.signed (health (g_entities
     (Nat.iter 7 (exec Slap) (server ["slap"; "0"; "20"]%string 50)) 0)) = -10.
Proof.
  split.
  - refine (proj1 (repeated_Slap_health 2 (server ["slap"; "0"; "20"]%string 50) _ _)).
    + unfold live_target, passes_range_check. vm_compute. repeat split; discriminate.
    + reflexivity.
  - refine (proj1 (repeated_Slap_health 7 (server ["slap"; "0"; "20"]%string 50) _ _)).
    + unfold live_target, passes_range_check. vm_compute. repeat split; discriminate.
    + reflexivity.
Defined.

(** ** Client ids and damages as text *)

Lemma Int_repr_signed (x : Int.int) : Int.repr (Int.signed x) = x.
Proof.
  apply Int_signed_inj. rewrite Int_signed_repr.
  apply Int_wrap_in_range, Int_signed_range.
Qed.

Lemma clamp_long_int (z : Z) : Int.in_range z -> clamp_long z = z.
Proof.
  unfold Int.in_range, Int.min_signed, Int.max_signed, clamp_long. lia.
Qed.

(** Scanning the digits of a decimal numeral, with digits already read. *)
Lemma scan_digits_uint_acc (d : Decimal.uint) (acc : positive) (rest : string) :
  no_leading_digit rest = true ->
  scan_digits (NilEmpty.string_of_uint d ++ rest) (Z.pos acc)
    = Z.pos (Pos.of_uint_acc d acc).
Proof.
  intros N. revert acc.
  induction d as [|d IH|d IH|d IH|d IH|d IH|d IH|d IH|d IH|d IH|d IH]; intros acc;
    cbn [NilEmpty.string_of_uint append Pos.of_uint_acc].
  1: apply scan_digits_stops; exact N.
  all: cbn [scan_digits];
    match goal with
    | |- context [digit_of ?c] =>
        let v := eval vm_compute in (digit_of c) in
        change (digit_of c) with v
    end; cbv beta iota;
    match goal with
    | |- scan_digits _ ?a = Z.pos (Pos.of_uint_acc _ ?p) =>
        replace a with (Z.pos p) by lia
    end; apply IH.
Qed.

Lemma scan_digits_uint (d : Decimal.uint) (rest : string) :
  no_leading_digit rest = true ->
  scan_digits (NilEmpty.string_of_uint d ++ rest) 0 = Z.of_N (Pos.of_uint d).
Proof.
  intros N.
  induction d as [|d IH|d IH|d IH|d IH|d IH|d IH|d IH|d IH|d IH|d IH];
    cbn [NilEmpty.string_of_uint append Pos.of_uint].
  1: apply scan_digits_stops; exact N.
  1: exact IH.
  all: cbn [scan_digits];
    match goal with
    | |- context [digit_of ?c] =>
        let v := eval vm_compute in (digit_of c) in
        change (digit_of c) with v
    end; cbv beta iota; cbn [Z.of_N];
    match goal with
    | |- scan_digits _ ?a = Z.pos (Pos.of_uint_acc _ ?p) =>
        change a with (Z.pos p)
    end; apply scan_digits_uint_acc; exact N.
Qed.

Lemma scan_digits_to_uint (p : positive) (rest : string) :
  no_leading_digit rest = true ->
  scan_digits (NilEmpty.string_of_uint (Pos.to_uint p) ++ rest) 0 = Z.pos p.
Proof.
  intros N. rewrite (scan_digits_uint _ _ N), DecimalPos.Unsigned.of_to.
  reflexivity.
Qed.

Lemma strtol10_unsigned (d : Decimal.uint) (rest : string) :
  d <> Decimal.Nil ->
  strtol10 (NilEmpty.string_of_uint d ++ rest)
    = clamp_long (scan_digits (NilEmpty.string_of_uint d ++ rest) 0).
Proof.
  intros N. destruct d; [contradiction | reflexivity ..].
Qed.

Lemma strtol10_minus (s : string) :
  strtol10 (String "-" s) = clamp_long (- scan_digits s 0).
Proof. reflexivity. Qed.

Lemma NilZero_nonnil (d : Decimal.uint) :
  d <> Decimal.Nil -> NilZero.string_of_uint d = NilEmpty.string_of_uint d.
Proof. intros N. destruct d; [contradiction | reflexivity ..]. Qed.

Lemma atoi_fmt_d (x : Int.int) (rest : string) :
  no_leading_digit rest = true -> atoi (fmt_d x ++ rest) = x.
Proof.
  intros N. unfold atoi, fmt_d.
  pose proof (Int_signed_range x) as R.
  rewrite <- (Int_repr_signed x) at 2. f_equal.
  destruct (Int.signed x) as [|p|p] eqn:E.
  - cbn [Z.to_int NilZero.string_of_int].
    change (NilZero.string_of_uint Decimal.zero ++ rest)%string
      with (String "0" rest).
    change (strtol10 (String "0" rest)) with (clamp_long (scan_digits rest 0)).
    rewrite (scan_digits_stops _ _ N). reflexivity.
  - cbn [Z.to_int NilZero.string_of_int].
    rewrite (NilZero_nonnil _ (Unsigned.to_uint_nonnil p)).
    rewrite (strtol10_unsigned _ _ (Unsigned.to_uint_nonnil p)).
    rewrite (scan_digits_to_uint _ _ N). apply clamp_long_int. exact R.
  - cbn [Z.to_int NilZero.string_of_int].
    rewrite (NilZero_nonnil _ (Unsigned.to_uint_nonnil p)).
    cbn [append]. rewrite strtol10_minus.
    rewrite (scan_digits_to_uint _ _ N). apply clamp_long_int. exact R.
Qed.

Lemma skip_space_leading (ws s : string) :
  all_space ws = true -> skip_space (ws ++ s) = skip_space s.
Proof.
  induction ws as [|c r IH]; [reflexivity | ].
  cbn [all_space append skip_space]. intros H.
  apply andb_true_iff in H. destruct H as (C & R). rewrite C. exact (IH R).
Qed.

Lemma atoi_leading_space (ws s : string) :
  all_space ws = true -> atoi (ws ++ s) = atoi s.
Proof.
  intros H. unfold atoi, strtol10. rewrite (skip_space_leading _ _ H).
  reflexivity.
Qed.

(** X9.  Numbers as the commands print and read them.  The decimal text
    [%d] prints for an [int] is read back by [atoi] as that [int], also
    with white space before it and with anything that does not start with
    a digit after it.  So a second token of that form makes the client id
    that [int], and the range check passes exactly when it lies in
    [0 .. sv_maxclients]; a third token of that form makes Slap's damage
    that [int]. *)
Theorem atoi_reads_back_printed_int (x : Int.int) (ws rest : string) :
  all_space ws = true -> no_leading_digit rest = true ->
  atoi (ws ++ fmt_d x ++ rest) = x /\
  (forall w c more,
     cmd_argv w = c :: (ws ++ fmt_d x ++ rest)%string :: more ->
     arg_client_id w = x /\
     (passes_range_check w <-> 0 <= Int.signed x <= Int.signed (sv_maxclients w))) /\
  (forall w c a more,
     cmd_argv w = c :: a :: (ws ++ fmt_d x ++ rest)%string :: more ->
     arg_damage w = x).
Proof.
  intros W N.
  assert (atoi (ws ++ fmt_d x ++ rest) = x) as A.
  { rewrite (atoi_leading_space _ _ W). apply atoi_fmt_d. exact N. }
  refine (conj A (conj _ _)).
  - intros w c more E.
    assert (arg_client_id w = x) as I.
    { unfold arg_client_id. rewrite E. exact A. }
    split; [exact I | ]. unfold passes_range_check. rewrite I. reflexivity.
  - intros w c a more E. unfold arg_damage, argc. rewrite E.
    cbn [List.length nth].
    destruct (Z.ltb_spec 2 (Z.of_nat (S (S (S (List.length more)))))) as [L | L];
      [exact A | lia].
Qed.

Lemma atoi_reads_back_printed_int_witness :
  atoi (" " ++ fmt_d (Int.repr (-2147483648)) ++ "hp") = Int.repr (-2147483648).
Proof.
  refine (proj1 (atoi_reads_back_printed_int (Int.repr (-2147483648)) " " "hp" _ _)).
  - reflexivity.
  - reflexivity.
Defined.

(** ** The order of a restart *)

(** X11.  [RestartPython] prints its line on the console before anything
    else, calls [PyMinqlx_Initialize] after that, and delivers the new-game
    notification after [PyMinqlx_Initialize], as the last thing it does. *)
Theorem RestartPython_notifies_after_initialize (w : world) :
  let run := calls RestartPython w in
  hd_error run = Some (Ev_Com_Printf ("Restarting Python..." ++ nl)) /\
  precedes (Ev_Com_Printf ("Restarting Python..." ++ nl)) Ev_PyMinqlx_Initialize run /\
  precedes Ev_PyMinqlx_Initialize (Ev_NewGameDispatcher (Int.repr 0)) run /\
  last run Ev_PyMinqlx_Initialize = Ev_NewGameDispatcher (Int.repr 0).
Proof.
  destruct (RestartPython_run w) as (T & _).
  apply calls_of_trace in T. cbv zeta. rewrite T. clear T.
  destruct (py_initialized w); cbn [app].
  - refine (conj eq_refl (conj _ (conj _ eq_refl))).
    + exists [], [Ev_PyMinqlx_Finalize], [Ev_NewGameDispatcher (Int.repr 0)].
      reflexivity.
    + exists [Ev_Com_Printf ("Restarting Python..." ++ nl)%string; Ev_PyMinqlx_Finalize],
        [], []. reflexivity.
  - refine (conj eq_refl (conj _ (conj _ eq_refl))).
    + exists [], [], [Ev_NewGameDispatcher (Int.repr 0)]. reflexivity.
    + exists [Ev_Com_Printf ("Restarting Python..." ++ nl)%string], [], [].
      reflexivity.
Qed.
